(** * Hybrid retrieval memory of alba: a shallow embedding of
    [src/memory/long_term_memory.py] and the properties of its
    ingestion pipeline and query planner. *)

From Stdlib Require Import ZArith String Ascii List Lia QArith.
From stdpp Require Import gmap strings list pretty.

#[local] Set Warnings "-clear-no-such-hyp".

Import ListNotations.
Local Open Scope string_scope.
Local Open Scope list_scope.
Local Open Scope Z_scope.

(** ** Python values and exceptions *)

(** The values the code reads out of metadata dictionaries and store rows. *)
Inductive pyval :=
| PyStr (s : string)
| PyInt (z : Z)
| PyNone.

#[global] Instance pyval_eq_dec : EqDecision pyval.
Proof. solve_decision. Defined.

(** [str(v)], as an f-string renders a value. *)
Definition py_str (v : pyval) : string :=
  match v with
  | PyStr s => s
  | PyInt z => pretty z
  | PyNone => "None"
  end.

(** The exceptions that reach the code: Python's own and the ones an external
    collaborator (embedding provider, tagger, vector store) raises. *)
Inductive exn :=
| ZeroDivisionError
| IndexError
| KeyError (key : string)
| AttributeError
| TypeError
| ValueError
| ExternalError (msg : string).

#[global] Instance exn_eq_dec : EqDecision exn.
Proof. solve_decision. Defined.

Inductive result (A : Type) :=
| Ok (a : A)
| Raise (e : exn).
Arguments Ok {A} a.
Arguments Raise {A} e.

Definition is_ok {A} (r : result A) : bool :=
  match r with Ok _ => true | Raise _ => false end.

(** ** Python strings and sequences *)

Definition underscore : ascii := "_"%char.
Definition double_quote : ascii := ascii_of_nat 34.
Definition backslash : ascii := ascii_of_nat 92.

(** [s.split(sep)[0]]: the part of [s] before the first [sep], all of [s]
    when it has none. *)
Fixpoint py_split_0 (sep : ascii) (s : string) : string :=
  match s with
  | EmptyString => EmptyString
  | String c rest =>
      if Ascii.eqb c sep then EmptyString else String c (py_split_0 sep rest)
  end.

(** [s.replace(c, r)] for a one-character pattern. *)
Fixpoint py_replace_char (c : ascii) (r : string) (s : string) : string :=
  match s with
  | EmptyString => EmptyString
  | String a rest =>
      if Ascii.eqb a c then r +:+ py_replace_char c r rest
      else String a (py_replace_char c r rest)
  end.

Fixpoint has_char (c : ascii) (s : string) : bool :=
  match s with
  | EmptyString => false
  | String a rest => Ascii.eqb a c || has_char c rest
  end.

(** How Python turns a slice bound into a position of a sequence of length
    [len]: a negative bound counts from the end, and both are clipped. *)
Definition py_bound (len i : Z) : Z :=
  if i <? 0 then Z.max (i + len) 0 else Z.min i len.

(** [l[a:b]] *)
Definition py_slice {A} (l : list A) (a b : Z) : list A :=
  let len := Z.of_nat (length l) in
  let a' := py_bound len a in
  let b' := py_bound len b in
  take (Z.to_nat (b' - a')) (drop (Z.to_nat a') l).

(** [l[a:]] *)
Definition py_slice_from {A} (l : list A) (a : Z) : list A :=
  py_slice l a (Z.of_nat (length l)).

(** A Python [str] is a sequence of characters; it is held here as its UTF-8
    encoding.  A byte of the form [10xxxxxx] continues a character, every
    other byte starts one. *)
Definition utf8_continuation (c : ascii) : bool :=
  match c with
  | Ascii _ _ _ _ _ _ b6 b7 => b7 && negb b6
  end.

Definition continues (s : string) : bool :=
  match s with
  | EmptyString => false
  | String c _ => utf8_continuation c
  end.

(** The characters of a string in their order, each one its first byte
    with the continuation bytes that follow it. *)
Fixpoint py_chars (s : string) : list string :=
  match s with
  | EmptyString => []
  | String c rest =>
      match py_chars rest with
      | ch :: chars =>
          if continues rest then String c ch :: chars
          else String c EmptyString :: ch :: chars
      | [] => [String c EmptyString]
      end
  end.

Definition join_chars (chars : list string) : string :=
  fold_right String.append EmptyString chars.

(** [len(s)] on a string: the number of its characters. *)
Definition py_str_len (s : string) : Z := Z.of_nat (length (py_chars s)).

(** [s[:n]] on a string: the slice is taken on the characters. *)
Definition py_str_prefix (s : string) (n : Z) : string :=
  join_chars (py_slice (py_chars s) 0 n).

(** The bytes of a character after its first one all continue it. *)
Fixpoint all_continuation (s : string) : bool :=
  match s with
  | EmptyString => true
  | String c rest => utf8_continuation c && all_continuation rest
  end.

Definition is_char (ch : string) : Prop :=
  match ch with
  | EmptyString => False
  | String _ rest => all_continuation rest = true
  end.

(** A list of characters as [py_chars] gives them: every one but the first
    starts with a byte that starts a character. *)
Definition chars_wf (chars : list string) : Prop :=
  Forall is_char chars /\ Forall (fun ch => continues ch = false) (tail chars).

(** [l[i]] for an index the code produces itself (never negative). *)
Definition py_index {A} (l : list A) (i : nat) : result A :=
  match l !! i with
  | Some x => Ok x
  | None => Raise IndexError
  end.

(** ** Data model *)

(** An entity dictionary, with its keys [type] and [value]. *)
Module Entity.
Record t := mk { type : string; value : string }.
#[global] Instance eq_dec : EqDecision t.
Proof. solve_decision. Defined.
End Entity.

(** Embedding vectors are carried from the providers to the store and never
    inspected: their components are kept as rationals. *)
Definition vector : Type := list Q.

(** The [Document] class: parsed documents and chunks are both instances. *)
Module Document.
Record t := mk {
  id : string;
  text : string;
  metadata : gmap string pyval;
}.
End Document.

(** A row of the [chunks] collection, as [_generate_chunk_records] builds it. *)
Module ChunkRecord.
Record t := mk {
  id : string;
  dense_vector : vector;
  sparse_vector : vector;
  parent_id : pyval;
  text : string;
  entities : list Entity.t;
}.
End ChunkRecord.

(** A hit of a hybrid search with the output fields the planner asks for. *)
Module Hit.
Record t := mk {
  id : string;
  parent_id : string;
  entities : list Entity.t;
}.
End Hit.

(** A row of the [docs] collection, as [_generate_doc_records] builds it. *)
Module DocRecord.
Record t := mk {
  id : string;
  page : pyval;
  date : pyval;
  type : pyval;
  number : Z;
  text : string;
  docs_vector : vector;
}.
End DocRecord.

(** One ranked request of a hybrid search; [param] holds the metric type and
    the [nprobe] parameter. *)
Module AnnSearchRequest.
Record t := mk {
  data : list vector;
  anns_field : string;
  metric_type : string;
  nprobe : Z;
  limit : Z;
}.
End AnnSearchRequest.

(** The arguments of [Collection.hybrid_search].  The filter expression
    [JSON_CONTAINS_ANY(entities, [...])] is kept as the entity list it is
    printed from; [None] is a call without [filter]. *)
Module HybridSearch.
Record t := mk {
  reqs : list AnnSearchRequest.t;
  rerank : Q * Q;
  output_fields : list string;
  limit : Z;
  filter : option (list Entity.t);
}.
End HybridSearch.

(** ** Effects: exceptions and a trace of calls *)

(** What the code does to the outside world, in the order it does it: the
    calls to its collaborators and the errors it logs.  The progress messages
    of [logging.info] are left out. *)
Inductive event :=
| EvDenseEncodeDocuments (texts : list string)
| EvSparseEncodeDocuments (texts : list string)
| EvDenseEncodeQueries (texts : list string)
| EvSparseEncodeQueries (texts : list string)
| EvExtractEntities (text : string)
| EvChunkDocuments (documents : list Document.t)
| EvChunksInsert (records : list ChunkRecord.t)
| EvHybridSearch (search : HybridSearch.t)
| EvClientGet (collection : string) (ids : list string)
| EvClientInsertDocs (records : list DocRecord.t)
| EvGenerateDocuments (files : list string) (type : string)
| EvLogError (next_start_from : Z)
| EvLogLookupError (data_id : string).

(** A computation returns or raises, and leaves its trace. *)
Definition M (A : Type) : Type := result A * list event.

Definition ret {A} (a : A) : M A := (Ok a, []).
Definition raise {A} (e : exn) : M A := (Raise e, []).

Definition bind {A B} (m : M A) (k : A -> M B) : M B :=
  match m with
  | (Ok a, t) => let '(r, t') := k a in (r, t ++ t')
  | (Raise e, t) => (Raise e, t)
  end.

(** A call to a collaborator: the event, then what the collaborator answers. *)
Definition call {A} (ev : event) (r : result A) : M A := (r, [ev]).

Definition lift {A} (r : result A) : M A := (r, []).

(** [try: m  except Exception as e: h e] *)
Definition try_except {A} (m : M A) (h : exn -> M A) : M A :=
  match m with
  | (Ok a, t) => (Ok a, t)
  | (Raise e, t) => let '(r, t') := h e in (r, t ++ t')
  end.

Declare Scope py_scope.
Delimit Scope py_scope with py.
Notation "x <- m ;; k" := (bind m (fun x => k))
  (at level 100, m at next level, right associativity) : py_scope.
Notation "m ;;; k" := (bind m (fun _ => k))
  (at level 100, right associativity) : py_scope.
Local Open Scope py_scope.

Definition outcome {A} (m : M A) : result A := fst m.
Definition trace {A} (m : M A) : list event := snd m.

Arguments bind : simpl never.
Arguments try_except : simpl never.
Arguments call : simpl never.
Arguments lift : simpl never.
Arguments outcome : simpl never.
Arguments trace : simpl never.

(** ** The long-term memory object *)

(** [self]: what [LongTermMemory.__init__] binds.  The embedding functions, the
    entity tagger, the document engine and the Milvus collections are
    collaborators; each is given by what it answers to a call. *)
Record LongTermMemory := {
  dense_encode_documents : list string -> result (list vector);
  dense_encode_queries : list string -> result (list vector);
  sparse_encode_documents : list string -> result (list vector);
  sparse_encode_queries : list string -> result (list vector);
  extract_entities : string -> result (list (string * string));
  generate_documents : list string -> string -> result (list Document.t);
  _chunk_documents : list Document.t -> result (list Document.t);
  client_insert_docs : list DocRecord.t -> result unit;
  chunks_insert : list ChunkRecord.t -> result unit;
  chunks_hybrid_search : HybridSearch.t -> result (list (list Hit.t));
  client_get : string -> list string -> result (list (gmap string pyval));
  config_chunk_size : Z;
  config_doc_size : Z;
}.

Definition DENSE_SEARCH_WEIGHT : Q := 1 # 10.
Definition SPARSE_SEARCH_WEIGHT : Q := 9 # 10.

(** ** Ingestion: chunk records *)

Definition law_entity (parent_document_id : string) : Entity.t :=
  Entity.mk "LAW" parent_document_id.

(** The [any(...)] over the entities whose type is LAW and whose value is
    [parent_document_id]; an entity dictionary has two keys, so it is truthy. *)
Definition law_entity_exists
    (entities_list : list Entity.t) (parent_document_id : string) : bool :=
  existsb
    (fun ent =>
       String.eqb (Entity.type ent) "LAW"
       && String.eqb (Entity.value ent) parent_document_id)
    entities_list.

(** The LAW entity of the parent document is appended when it is not there. *)
Definition inject_law_entity
    (entities_list : list Entity.t) (parent_document_id : string)
  : list Entity.t :=
  if law_entity_exists entities_list parent_document_id
  then entities_list
  else entities_list ++ [law_entity parent_document_id].

(** The list of dictionaries of the tagged entities. *)
Definition entity_dicts (entities : list (string * string)) : list Entity.t :=
  map (fun ent => Entity.mk (fst ent) (snd ent)) entities.

Definition chunk_entities
    (entities : list (string * string)) (chunk_id : string) : list Entity.t :=
  let entities_list := entity_dicts entities in
  let parent_document_id := py_split_0 underscore chunk_id in
  inject_law_entity entities_list parent_document_id.

(** [for i, chunk in enumerate(chunks)] of [_generate_chunk_records], from
    index [i] on, with the records built so far. *)
Fixpoint chunk_records_loop
    (self : LongTermMemory) (dense_embeddings sparse_embeddings : list vector)
    (i : nat) (chunks : list Document.t) (records : list ChunkRecord.t)
  : M (list ChunkRecord.t) :=
  match chunks with
  | [] => ret records
  | chunk :: rest =>
      entities <- call (EvExtractEntities (Document.text chunk))
                       (extract_entities self (Document.text chunk)) ;;
      let entities_list := chunk_entities entities (Document.id chunk) in
      dense_vector <- lift (py_index dense_embeddings i) ;;
      sparse_vector <- lift (py_index sparse_embeddings i) ;;
      let record :=
        ChunkRecord.mk
          (Document.id chunk)
          dense_vector
          sparse_vector
          (default (PyInt 0) (Document.metadata chunk !! "parent_id"))
          (py_str_prefix (Document.text chunk) (config_chunk_size self))
          entities_list in
      chunk_records_loop self dense_embeddings sparse_embeddings
        (S i) rest (records ++ [record])
  end.

Definition _generate_chunk_records
    (self : LongTermMemory) (chunks : list Document.t)
  : M (list ChunkRecord.t) :=
  let chunk_texts := map Document.text chunks in
  dense_embeddings <- call (EvDenseEncodeDocuments chunk_texts)
                           (dense_encode_documents self chunk_texts) ;;
  raw_sparse_embeddings <- call (EvSparseEncodeDocuments chunk_texts)
                                (sparse_encode_documents self chunk_texts) ;;
  (* each row of the csr matrix, through [toarray().tolist()[0]] *)
  let sparse_embeddings := map (fun row : vector => row) raw_sparse_embeddings in
  chunk_records_loop self dense_embeddings sparse_embeddings 0%nat chunks [].

Definition _insert_chunk_records
    (self : LongTermMemory) (chunk_records : list ChunkRecord.t) : M unit :=
  call (EvChunksInsert chunk_records) (chunks_insert self chunk_records).

Definition _process_and_insert_chunk_batch
    (self : LongTermMemory) (batch_documents : list Document.t) : M unit :=
  chunks <- call (EvChunkDocuments batch_documents)
                 (_chunk_documents self batch_documents) ;;
  chunk_records <- _generate_chunk_records self chunks ;;
  _insert_chunk_records self chunk_records.

(** ** Ingestion: batches *)

Definition len {A} (l : list A) : Z := Z.of_nat (length l).

Definition batch_start_idx (start_from batch_size : Z) (i : nat) : Z :=
  start_from + Z.of_nat i * batch_size.

Definition batch_end_idx
    (documents : list Document.t) (start_from batch_size : Z) (i : nat) : Z :=
  Z.min (start_from + (Z.of_nat i + 1) * batch_size) (len documents).

Definition batch_documents
    (documents : list Document.t) (start_from batch_size : Z) (i : nat)
  : list Document.t :=
  py_slice documents
    (batch_start_idx start_from batch_size i)
    (batch_end_idx documents start_from batch_size i).

(** One turn of the loop: the batch, and the handler that logs the next
    [start_from] and raises again. *)
Definition process_batch
    (self : LongTermMemory) (documents : list Document.t)
    (batch_size start_from : Z) (i : nat) : M unit :=
  let start_idx := batch_start_idx start_from batch_size i in
  try_except
    (_process_and_insert_chunk_batch self
       (batch_documents documents start_from batch_size i))
    (fun e =>
       let next_start_from := start_idx + batch_size in
       call (EvLogError next_start_from) (Ok tt) ;;; raise e).

Fixpoint process_batches
    (self : LongTermMemory) (documents : list Document.t)
    (batch_size start_from : Z) (indices : list nat) : M unit :=
  match indices with
  | [] => ret tt
  | i :: rest =>
      process_batch self documents batch_size start_from i ;;;
      process_batches self documents batch_size start_from rest
  end.

Definition num_batches
    (documents : list Document.t) (batch_size start_from : Z) : Z :=
  let adjusted_docs := py_slice_from documents start_from in
  len adjusted_docs / batch_size
  + (if len adjusted_docs mod batch_size >? 0 then 1 else 0).

Definition _process_and_insert_chunks
    (self : LongTermMemory) (documents : list Document.t)
    (batch_size start_from : Z) : M unit :=
  if batch_size =? 0 then raise ZeroDivisionError
  else
    process_batches self documents batch_size start_from
      (seq 0 (Z.to_nat (num_batches documents batch_size start_from))).

(** ** Ingestion: document records and [add_documents] *)

Section DocRecords.
(** [int(s)] on a string is Python's own parser; it is taken as given. *)
Variable py_int_of_str : string -> result Z.

Definition py_int (v : pyval) : result Z :=
  match v with
  | PyInt z => Ok z
  | PyStr s => py_int_of_str s
  | PyNone => Raise TypeError
  end.

Definition doc_record (self : LongTermMemory) (doc : Document.t)
  : result DocRecord.t :=
  let metadata := Document.metadata doc in
  match
    (match metadata !! "number" with
     | Some PyNone | None => Ok 0
     | Some v => py_int v
     end)
  with
  | Raise e => Raise e
  | Ok number =>
      Ok (DocRecord.mk
            (Document.id doc)
            (default (PyInt 0) (metadata !! "page"))
            (default (PyStr "") (metadata !! "date"))
            (default (PyStr "") (metadata !! "type"))
            number
            (py_str_prefix (Document.text doc) (config_doc_size self))
            [0%Q; 0%Q])
  end.

Fixpoint _generate_doc_records
    (self : LongTermMemory) (documents : list Document.t)
  : result (list DocRecord.t) :=
  match documents with
  | [] => Ok []
  | doc :: rest =>
      match doc_record self doc with
      | Raise e => Raise e
      | Ok record =>
          match _generate_doc_records self rest with
          | Raise e => Raise e
          | Ok records => Ok (record :: records)
          end
      end
  end.

(** [add_documents(files, type)]; the chunks are processed with the default
    [batch_size=10] and [start_from=0]. *)
Definition add_documents
    (self : LongTermMemory) (files : list string) (type : string) : M unit :=
  documents <- call (EvGenerateDocuments files type)
                    (generate_documents self files type) ;;
  doc_records <- lift (_generate_doc_records self documents) ;;
  call (EvClientInsertDocs doc_records)
       (client_insert_docs self doc_records) ;;;
  _process_and_insert_chunks self documents 10 0.
End DocRecords.

(** ** Deleting collections *)

(** The store, as far as [delete_documents] sees it: the set of collection
    names of the connected Milvus server. *)
Module MilvusClient.
Definition t : Type := gset string.
Definition list_collections (client : t) : list string := elements client.
Definition drop_collection (name : string) (client : t) : t :=
  client ∖ {[name]}.
End MilvusClient.

(** [delete_documents(collection)], returning the store it leaves. *)
Definition delete_documents
    (client : MilvusClient.t) (collection : string) : MilvusClient.t :=
  if String.eqb collection "all" then
    let collections := MilvusClient.list_collections client in
    foldl
      (fun client collection_name =>
         MilvusClient.drop_collection collection_name client)
      client collections
  else MilvusClient.drop_collection collection client.

(** ** Query: finding the relevant chunks *)

Definition nl : string := String (ascii_of_nat 10) EmptyString.

(** The [replace] on an entity value: every double quote gets a backslash
    before it. *)
Definition escape_quotes (entity_value : string) : string :=
  py_replace_char double_quote
    (String backslash (String double_quote EmptyString)) entity_value.

(** The [entity_list] of the query, printed into the filter and used again for
    the check of the hits. *)
Definition query_entity_list
    (extracted_entities : list (string * string)) : list Entity.t :=
  map (fun ent => Entity.mk (fst ent) (escape_quotes (snd ent)))
      extracted_entities.

(** [any(ent in entities for ent in entity_list)] on the entities of a hit. *)
Definition hit_matches (entity_list : list Entity.t) (hit : Hit.t) : bool :=
  existsb (fun ent => bool_decide (ent ∈ Hit.entities hit)) entity_list.

Definition ann_request
    (data : list vector) (anns_field : string) (n_results : Z)
  : AnnSearchRequest.t :=
  AnnSearchRequest.mk data anns_field "IP" 1000 n_results.

Definition hybrid_search_call
    (dense_query_embedding sparse_query_embedding : list vector)
    (n_results : Z) (output_fields : list string)
    (filter : option (list Entity.t)) : HybridSearch.t :=
  HybridSearch.mk
    [ann_request dense_query_embedding "dense_vector" n_results;
     ann_request sparse_query_embedding "sparse_vector" n_results]
    (DENSE_SEARCH_WEIGHT, SPARSE_SEARCH_WEIGHT)
    output_fields n_results filter.

Definition hybrid_search (self : LongTermMemory) (search : HybridSearch.t)
  : M (list (list Hit.t)) :=
  call (EvHybridSearch search) (chunks_hybrid_search self search).

Definition is_empty {A} (l : list A) : bool :=
  match l with [] => true | _ => false end.

Definition _find_relevant_chunks
    (self : LongTermMemory) (query : string) (n_results : Z)
  : M (list Hit.t) :=
  raw_query_dense_embeddings <-
    call (EvDenseEncodeQueries [query]) (dense_encode_queries self [query]) ;;
  dense_0 <- lift (py_index raw_query_dense_embeddings 0) ;;
  let dense_query_embedding := [dense_0] in
  sparse_query_embedding <-
    call (EvSparseEncodeQueries [query]) (sparse_encode_queries self [query]) ;;
  extracted_entities <-
    call (EvExtractEntities query) (extract_entities self query) ;;
  let entity_list := query_entity_list extracted_entities in
  (* [response = None], then the search with the filter *)
  response <-
    (if is_empty extracted_entities then ret None
     else
       response <-
         hybrid_search self
           (hybrid_search_call dense_query_embedding sparse_query_embedding
              n_results ["parent_id"; "entities"] (Some entity_list)) ;;
       response_0 <- lift (py_index response 0) ;;
       let hits := List.filter (hit_matches entity_list) response_0 in
       ret (Some (if is_empty hits then response
                  else <[0%nat := hits]> response))) ;;
  (* [if not extracted_entities or not len(response)] *)
  response <-
    (match response with
     | Some response =>
         if is_empty extracted_entities || (len response =? 0)
         then hybrid_search self
                (hybrid_search_call dense_query_embedding
                   sparse_query_embedding n_results ["parent_id"] None)
         else ret response
     | None =>
         hybrid_search self
           (hybrid_search_call dense_query_embedding sparse_query_embedding
              n_results ["parent_id"] None)
     end) ;;
  lift (py_index response 0).

(** ** Query: parent documents and the context *)

(** The loop of [_retrieve_parent_documents] on the hits left, with the
    parent ids collected so far. *)
Fixpoint unique_parent_ids_loop
    (response : list Hit.t) (n_docs : Z) (unique_parent_ids : list string)
  : list string :=
  match response with
  | [] => unique_parent_ids
  | hit :: rest =>
      let parent_id := Hit.parent_id hit in
      if bool_decide (parent_id ∈ unique_parent_ids)
      then unique_parent_ids_loop rest n_docs unique_parent_ids
      else
        let unique_parent_ids := unique_parent_ids ++ [parent_id] in
        if len unique_parent_ids =? n_docs then unique_parent_ids
        else unique_parent_ids_loop rest n_docs unique_parent_ids
  end.

Definition unique_parent_ids (response : list Hit.t) (n_docs : Z) : list string :=
  unique_parent_ids_loop response n_docs [].

(** [_get_document_by_id]: [None] when the store has no such row, and also
    when anything raises.  The row's [id] and [text] are kept through their
    [str()], which is all the context prints of them. *)
Definition _get_document_by_id (self : LongTermMemory) (data_id : string)
  : M (option Document.t) :=
  try_except
    (res <- call (EvClientGet "docs" [data_id])
                 (client_get self "docs" [data_id]) ;;
     match res with
     | [] => ret None
     | fields :: _ =>
         let metadata := delete "id" (delete "text" (delete "docs_vector" fields)) in
         match fields !! "id" with
         | None => raise (KeyError "id")
         | Some id =>
             ret (Some (Document.mk
                          (py_str id)
                          (py_str (default (PyStr "") (fields !! "text")))
                          metadata))
         end
     end)
    (fun e => call (EvLogLookupError data_id) (Ok None)).

Fixpoint get_documents (self : LongTermMemory) (parent_ids : list string)
  : M (list (option Document.t)) :=
  match parent_ids with
  | [] => ret []
  | parent_id :: rest =>
      document <- _get_document_by_id self parent_id ;;
      documents <- get_documents self rest ;;
      ret (document :: documents)
  end.

Definition _retrieve_parent_documents
    (self : LongTermMemory) (response : list Hit.t) (n_docs : Z)
  : M (list (option Document.t)) :=
  get_documents self (unique_parent_ids response n_docs).

(** [sep.join(l)] *)
Fixpoint py_join (sep : string) (l : list string) : string :=
  match l with
  | [] => EmptyString
  | [s] => s
  | s :: rest => s +:+ sep +:+ py_join sep rest
  end.

(** [doc.metadata[key]]; [doc] may be [None]. *)
Definition metadata_item (doc : option Document.t) (key : string)
  : result pyval :=
  match doc with
  | None => Raise AttributeError
  | Some doc =>
      match Document.metadata doc !! key with
      | Some v => Ok v
      | None => Raise (KeyError key)
      end
  end.

Fixpoint create_context_loop
    (documents : list (option Document.t))
    (context : string) (sources_list : list string)
  : result (string * list string) :=
  match documents with
  | [] => Ok (context, sources_list)
  | doc :: rest =>
      match metadata_item doc "number" with
      | Raise e => Raise e
      | Ok number =>
          let header := "###DECRETO " +:+ py_str number +:+ "###" +:+ nl in
          let context :=
            context +:+ header
            +:+ from_option Document.text EmptyString doc +:+ nl +:+ nl in
          match metadata_item doc "page" with
          | Raise e => Raise e
          | Ok page =>
              create_context_loop rest context
                (sources_list
                 ++ ["- Decreto " +:+ py_str number
                     +:+ " (página " +:+ py_str page +:+ ")"])
          end
      end
  end.

Definition _create_context (documents : list (option Document.t))
  : result (string * string) :=
  match create_context_loop documents EmptyString [] with
  | Raise e => Raise e
  | Ok (context, sources_list) =>
      Ok (context, "Fuentes consultadas:" +:+ nl +:+ py_join nl sources_list)
  end.

Definition get_context (self : LongTermMemory) (query : string) (n_docs : Z)
  : M (string * string) :=
  let n_results := 1000 in
  results <- _find_relevant_chunks self query n_results ;;
  documents <- _retrieve_parent_documents self results n_docs ;;
  lift (_create_context documents).


(** ** The chunker *)

(** Modelled from the spec: the chunker, [DocumentEngine._chunk_documents] of
    [src/document_engine.py], which is not among the sources.  A document with
    an empty text gives no chunk; otherwise each passage of its text becomes a
    chunk whose id is the parent document id, an underscore and the sequence
    number of the passage, and whose [parent_id] refers back to the document.
    Where the passages are cut is a tunable, so it is a parameter. *)
Section Chunker.
Variable split_text : string -> list string.

Definition chunk_of (doc : Document.t) (sequence : nat) (passage : string)
  : Document.t :=
  Document.mk
    (Document.id doc +:+ "_" +:+ pretty sequence)
    passage
    {[ "parent_id" := PyStr (Document.id doc) ]}.

Definition chunk_document (doc : Document.t) : list Document.t :=
  if String.eqb (Document.text doc) EmptyString then []
  else imap (chunk_of doc) (split_text (Document.text doc)).

Definition spec_chunk_documents (documents : list Document.t)
  : list Document.t :=
  flat_map chunk_document documents.
End Chunker.

(** ** What the spec says of the parent ids *)

(** The distinct elements of a list in the order of their first appearance. *)
Fixpoint first_occurrences (l : list string) : list string :=
  match l with
  | [] => []
  | x :: rest =>
      x :: List.filter (fun y => negb (String.eqb y x)) (first_occurrences rest)
  end.

Definition not_among (seen : list string) (x : string) : bool :=
  negb (bool_decide (x ∈ seen)).

(** ** Calls in a trace *)

Definition is_dense_encode_documents (ev : event) : bool :=
  match ev with EvDenseEncodeDocuments _ => true | _ => false end.

Definition is_sparse_encode_documents (ev : event) : bool :=
  match ev with EvSparseEncodeDocuments _ => true | _ => false end.

Definition is_extract_entities (ev : event) : bool :=
  match ev with EvExtractEntities _ => true | _ => false end.

(** The hybrid searches of a trace, by their filter. *)
Definition search_filters (t : list event) : list (option (list Entity.t)) :=
  omap (fun ev => match ev with
                  | EvHybridSearch search => Some (HybridSearch.filter search)
                  | _ => None
                  end) t.


(** The batches a trace hands to the chunker. *)
Definition chunked_batches (t : list event) : list (list Document.t) :=
  omap (fun ev => match ev with
                  | EvChunkDocuments documents => Some documents
                  | _ => None
                  end) t.

(** The record [_generate_chunk_records] builds for the chunk at index [i],
    from the embeddings the two providers returned. *)
Definition record_of
    (self : LongTermMemory) (dense_embeddings sparse_embeddings : list vector)
    (i : nat) (chunk : Document.t) (r : ChunkRecord.t) : Prop :=
  exists tagged,
    extract_entities self (Document.text chunk) = Ok tagged
    /\ dense_embeddings !! i = Some (ChunkRecord.dense_vector r)
    /\ sparse_embeddings !! i = Some (ChunkRecord.sparse_vector r)
    /\ ChunkRecord.id r = Document.id chunk
    /\ ChunkRecord.parent_id r
       = default (PyInt 0) (Document.metadata chunk !! "parent_id")
    /\ ChunkRecord.text r
       = py_str_prefix (Document.text chunk) (config_chunk_size self)
    /\ ChunkRecord.entities r = chunk_entities tagged (Document.id chunk).

(** The calls [_generate_chunk_records] makes: the two providers and the
    tagger. *)
Definition is_record_call (ev : event) : bool :=
  is_dense_encode_documents ev
  || is_sparse_encode_documents ev
  || is_extract_entities ev.

(** ** Example memories *)

(** A memory whose providers return one vector per text, whose tagger finds
    the law of a text that names decree 7, and whose chunker is the one of the
    spec with a single passage per document. *)
Definition example_memory : LongTermMemory := {|
  dense_encode_documents := fun texts => Ok (map (fun _ => [1%Q]) texts);
  dense_encode_queries := fun texts => Ok (map (fun _ => [1%Q]) texts);
  sparse_encode_documents := fun texts => Ok (map (fun _ => [0%Q; 1%Q]) texts);
  sparse_encode_queries := fun texts => Ok (map (fun _ => [0%Q; 1%Q]) texts);
  extract_entities :=
    fun text => Ok (if String.eqb text "decreto 7" then [("LAW", "7")] else []);
  generate_documents := fun _ _ => Ok [];
  _chunk_documents := fun documents =>
    Ok (spec_chunk_documents (fun text => [text]) documents);
  client_insert_docs := fun _ => Ok tt;
  chunks_insert := fun _ => Ok tt;
  chunks_hybrid_search := fun _ => Ok [[]];
  client_get := fun _ _ => Ok [];
  config_chunk_size := 512;
  config_doc_size := 4096;
|}.

Definition example_chunks : list Document.t :=
  [Document.mk "7_0" "decreto 7" {[ "parent_id" := PyStr "7" ]};
   Document.mk "8_0" "otro texto" {[ "parent_id" := PyStr "8" ]}].

Definition example_record_0 : ChunkRecord.t :=
  ChunkRecord.mk "7_0" [1%Q] [0%Q; 1%Q] (PyStr "7") "decreto 7"
    [law_entity "7"].

Definition example_record_1 : ChunkRecord.t :=
  ChunkRecord.mk "8_0" [1%Q] [0%Q; 1%Q] (PyStr "8") "otro texto"
    [law_entity "8"].

Definition example_records : list ChunkRecord.t :=
  [example_record_0; example_record_1].

Definition example_documents : list Document.t :=
  [Document.mk "7" "decreto 7" ∅; Document.mk "8" "otro texto" ∅].

(** The offsets a trace logs as the next [start_from]. *)
Definition logged_offsets (t : list event) : list Z :=
  omap (fun ev => match ev with
                  | EvLogError next_start_from => Some next_start_from
                  | _ => None
                  end) t.

(** The run of the batch of index [i]. *)
Definition run_batch
    (self : LongTermMemory) (documents : list Document.t)
    (batch_size start_from : Z) (i : nat) : M unit :=
  _process_and_insert_chunk_batch self
    (batch_documents documents start_from batch_size i).

(** Forty-five documents, numbered from 0. *)
Definition example_corpus : list Document.t :=
  map (fun n : nat => Document.mk (pretty n) ("decreto " +:+ pretty n) ∅)
      (seq 0 45).

Definition store_unavailable : exn := ExternalError "store unavailable".

(** The example memory with a store that refuses the records of document 30. *)
Definition failing_memory : LongTermMemory := {|
  dense_encode_documents := dense_encode_documents example_memory;
  dense_encode_queries := dense_encode_queries example_memory;
  sparse_encode_documents := sparse_encode_documents example_memory;
  sparse_encode_queries := sparse_encode_queries example_memory;
  extract_entities := extract_entities example_memory;
  generate_documents := generate_documents example_memory;
  _chunk_documents := _chunk_documents example_memory;
  client_insert_docs := client_insert_docs example_memory;
  chunks_insert := fun records =>
    if existsb (fun r => String.eqb (ChunkRecord.id r) "30_0") records
    then Raise store_unavailable else Ok tt;
  chunks_hybrid_search := chunks_hybrid_search example_memory;
  client_get := client_get example_memory;
  config_chunk_size := config_chunk_size example_memory;
  config_doc_size := config_doc_size example_memory;
|}.

(** Three hits on two parent documents, best first. *)
Definition example_hits : list Hit.t :=
  [Hit.mk "7_0" "7" [law_entity "7"];
   Hit.mk "8_0" "8" [law_entity "8"];
   Hit.mk "7_1" "7" [law_entity "7"]].

(** The example memory over a corpus that does not know decree 99: the tagger
    finds the law in the query, the search filtered on it has no hit, and the
    search without filter has the three example hits. *)
Definition fallback_memory : LongTermMemory := {|
  dense_encode_documents := dense_encode_documents example_memory;
  dense_encode_queries := dense_encode_queries example_memory;
  sparse_encode_documents := sparse_encode_documents example_memory;
  sparse_encode_queries := sparse_encode_queries example_memory;
  extract_entities :=
    fun text => Ok (if String.eqb text "decreto 99" then [("LAW", "99")] else []);
  generate_documents := generate_documents example_memory;
  _chunk_documents := _chunk_documents example_memory;
  client_insert_docs := client_insert_docs example_memory;
  chunks_insert := chunks_insert example_memory;
  chunks_hybrid_search := fun search =>
    match HybridSearch.filter search with
    | Some _ => Ok [[]]
    | None => Ok [example_hits]
    end;
  client_get := client_get example_memory;
  config_chunk_size := config_chunk_size example_memory;
  config_doc_size := config_doc_size example_memory;
|}.


(** The search [_find_relevant_chunks] makes with the entity filter. *)
Definition filtered_search
    (dense_0 : vector) (sparse_query_embedding : list vector) (n_results : Z)
    (extracted_entities : list (string * string)) : HybridSearch.t :=
  hybrid_search_call [dense_0] sparse_query_embedding n_results
    ["parent_id"; "entities"] (Some (query_entity_list extracted_entities)).

(** The search [_find_relevant_chunks] makes without filter. *)
Definition unfiltered_search
    (dense_0 : vector) (sparse_query_embedding : list vector) (n_results : Z)
  : HybridSearch.t :=
  hybrid_search_call [dense_0] sparse_query_embedding n_results
    ["parent_id"] None.

Definition collection_not_found : exn := ExternalError "collection not found".

(** The example memory after its collections were dropped: the search
    raises. *)
Definition dropped_store_memory : LongTermMemory := {|
  dense_encode_documents := dense_encode_documents example_memory;
  dense_encode_queries := dense_encode_queries example_memory;
  sparse_encode_documents := sparse_encode_documents example_memory;
  sparse_encode_queries := sparse_encode_queries example_memory;
  extract_entities := extract_entities example_memory;
  generate_documents := generate_documents example_memory;
  _chunk_documents := _chunk_documents example_memory;
  client_insert_docs := client_insert_docs example_memory;
  chunks_insert := chunks_insert example_memory;
  chunks_hybrid_search := fun _ => Raise collection_not_found;
  client_get := fun _ _ => Raise collection_not_found;
  config_chunk_size := config_chunk_size example_memory;
  config_doc_size := config_doc_size example_memory;
|}.

(** The first search [_find_relevant_chunks] makes for the entities it
    extracted. *)
Definition first_search
    (dense_0 : vector) (sparse_query_embedding : list vector) (n_results : Z)
    (extracted_entities : list (string * string)) : HybridSearch.t :=
  if is_empty extracted_entities
  then unfiltered_search dense_0 sparse_query_embedding n_results
  else filtered_search dense_0 sparse_query_embedding n_results
         extracted_entities.

(** ** More calls in a trace *)

(** The record lists a trace sends to the [chunks] collection, one per call
    of [insert]. *)
Definition insert_calls (t : list event) : list (list ChunkRecord.t) :=
  omap (fun ev => match ev with
                  | EvChunksInsert records => Some records
                  | _ => None
                  end) t.

(** The texts a trace hands to the tagger. *)
Definition tagged_texts (t : list event) : list string :=
  omap (fun ev => match ev with
                  | EvExtractEntities text => Some text
                  | _ => None
                  end) t.

(** The ids a trace looks up in the store. *)
Definition looked_up_ids (t : list event) : list (list string) :=
  omap (fun ev => match ev with
                  | EvClientGet _ ids => Some ids
                  | _ => None
                  end) t.

(** The hybrid searches of a trace. *)
Definition searches (t : list event) : list HybridSearch.t :=
  omap (fun ev => match ev with
                  | EvHybridSearch search => Some search
                  | _ => None
                  end) t.

(** ** The context, document by document *)

(** The block of one document in the context. *)
Definition context_block (doc : Document.t) (number : pyval) : string :=
  "###DECRETO " +:+ py_str number +:+ "###" +:+ nl
  +:+ Document.text doc +:+ nl +:+ nl.

(** The line of one document in the sources. *)
Definition source_line (number page : pyval) : string :=
  "- Decreto " +:+ py_str number +:+ " (página " +:+ py_str page +:+ ")".

(** What an entry of the list of documents makes [_create_context] raise, if
    anything. *)
Definition entry_error (doc : option Document.t) : option exn :=
  match metadata_item doc "number" with
  | Raise e => Some e
  | Ok _ =>
      match metadata_item doc "page" with
      | Raise e => Some e
      | Ok _ => None
      end
  end.

(** The block and the line of a document that has its number and page. *)
Definition entry_block (doc : option Document.t) : string :=
  match doc with
  | Some d =>
      context_block d (default PyNone (Document.metadata d !! "number"))
  | None => EmptyString
  end.

Definition entry_source (doc : option Document.t) : string :=
  match doc with
  | Some d =>
      source_line (default PyNone (Document.metadata d !! "number"))
                  (default PyNone (Document.metadata d !! "page"))
  | None => EmptyString
  end.

(** The strings of a list put one after the other. *)
Definition concat_strings (l : list string) : string :=
  fold_right String.append EmptyString l.

(** The first error among the entries, in their order. *)
Fixpoint first_entry_error (documents : list (option Document.t))
  : option exn :=
  match documents with
  | [] => None
  | doc :: rest =>
      match entry_error doc with
      | Some e => Some e
      | None => first_entry_error rest
      end
  end.

(** A memory whose dense provider returns no vector at all. *)
Definition short_dense_memory : LongTermMemory := {|
  dense_encode_documents := fun _ => Ok [];
  dense_encode_queries := fun _ => Ok [];
  sparse_encode_documents := sparse_encode_documents example_memory;
  sparse_encode_queries := sparse_encode_queries example_memory;
  extract_entities := extract_entities example_memory;
  generate_documents := generate_documents example_memory;
  _chunk_documents := _chunk_documents example_memory;
  client_insert_docs := client_insert_docs example_memory;
  chunks_insert := chunks_insert example_memory;
  chunks_hybrid_search := chunks_hybrid_search example_memory;
  client_get := client_get example_memory;
  config_chunk_size := config_chunk_size example_memory;
  config_doc_size := config_doc_size example_memory;
|}.

(** The row the docs collection holds for a document id in the example with
    a store that finds every document. *)
Definition example_row (data_id : string) : gmap string pyval :=
  {[ "id" := PyStr data_id;
     "text" := PyStr ("decreto " +:+ data_id);
     "number" := PyInt 12;
     "page" := PyInt 3;
     "date" := PyStr "2024-01-01";
     "type" := PyStr "decrees";
     "docs_vector" := PyNone ]}.

(** The example memory with a store that finds every document and a search
    that returns the three example hits. *)
Definition found_memory : LongTermMemory := {|
  dense_encode_documents := dense_encode_documents example_memory;
  dense_encode_queries := dense_encode_queries example_memory;
  sparse_encode_documents := sparse_encode_documents example_memory;
  sparse_encode_queries := sparse_encode_queries example_memory;
  extract_entities := extract_entities example_memory;
  generate_documents := generate_documents example_memory;
  _chunk_documents := _chunk_documents example_memory;
  client_insert_docs := client_insert_docs example_memory;
  chunks_insert := chunks_insert example_memory;
  chunks_hybrid_search := fun _ => Ok [example_hits];
  client_get := fun _ ids => Ok (map example_row ids);
  config_chunk_size := config_chunk_size example_memory;
  config_doc_size := config_doc_size example_memory;
|}.

(** ** Loading the collections *)

(** A field of a collection schema. *)
Module FieldSchema.
Record t := mk {
  name : string;
  dtype : string;
  max_length : option Z;
  dim : option Z;
  is_primary : bool;
}.
End FieldSchema.

(** An entry of [index_params]. *)
Module IndexParam.
Record t := mk {
  field_name : string;
  metric_type : string;
  index_type : option string;
  nlist : option Z;
}.
End IndexParam.

(** The settings the schemas read: two sizes of the configuration and the
    dimensions of the two embedding functions. *)
Record SchemaConfig := {
  config_max_doc_size : Z;
  config_chunk_text_size : Z;
  dense_dim : Z;
  sparse_dim : Z;
}.

Definition _create_docs_schema (config : SchemaConfig) : list FieldSchema.t :=
  [FieldSchema.mk "id" "VARCHAR" (Some 32) None true;
   FieldSchema.mk "page" "INT64" None None false;
   FieldSchema.mk "date" "VARCHAR" (Some 32) None false;
   FieldSchema.mk "type" "VARCHAR" (Some 32) None false;
   FieldSchema.mk "number" "INT64" None None false;
   FieldSchema.mk "text" "VARCHAR" (Some (config_max_doc_size config)) None false;
   FieldSchema.mk "docs_vector" "FLOAT_VECTOR" None (Some 2) false].

Definition _create_chunks_schema (config : SchemaConfig) : list FieldSchema.t :=
  [FieldSchema.mk "id" "VARCHAR" (Some 32) None true;
   FieldSchema.mk "dense_vector" "FLOAT_VECTOR" None (Some (dense_dim config)) false;
   FieldSchema.mk "sparse_vector" "FLOAT_VECTOR" None (Some (sparse_dim config)) false;
   FieldSchema.mk "parent_id" "VARCHAR" (Some 32) None false;
   FieldSchema.mk "text" "VARCHAR" (Some (config_chunk_text_size config)) None false;
   FieldSchema.mk "entities" "JSON" None None false].

(** The calls that load a collection makes on the client, besides
    [has_collection]. *)
Inductive store_call :=
| CallCreateCollection (collection_name : string) (schema : list FieldSchema.t)
| CallCreateIndex (collection_name : string) (index_params : list IndexParam.t)
| CallLoadCollection (collection_name : string).

(** [has_collection] and [create_collection] on the set of collection names. *)
Definition has_collection (client : MilvusClient.t) (name : string) : bool :=
  bool_decide (name ∈ client).

Definition create_collection (name : string) (client : MilvusClient.t)
  : MilvusClient.t :=
  {[name]} ∪ client.

Definition docs_index_params : list IndexParam.t :=
  [IndexParam.mk "docs_vector" "L2" (Some "IVF_FLAT") (Some 128)].

Definition chunks_index_params : list IndexParam.t :=
  [IndexParam.mk "dense_vector" "IP" (Some "IVF_FLAT") (Some 128);
   IndexParam.mk "sparse_vector" "IP" None None].

(** [_load_docs_collection]: the store it leaves and the calls it made. *)
Definition _load_docs_collection
    (config : SchemaConfig) (client : MilvusClient.t)
  : MilvusClient.t * list store_call :=
  let '(client, calls) :=
    if negb (has_collection client "docs") then
      let schema := _create_docs_schema config in
      (create_collection "docs" client,
       [CallCreateCollection "docs" schema;
        CallCreateIndex "docs" docs_index_params])
    else (client, []) in
  (client, calls ++ [CallLoadCollection "docs"]).

(** [_load_chunks_collection]: the index is asked for outside the test. *)
Definition _load_chunks_collection
    (config : SchemaConfig) (client : MilvusClient.t)
  : MilvusClient.t * list store_call :=
  let '(client, calls) :=
    if negb (has_collection client "chunks") then
      let schema := _create_chunks_schema config in
      (create_collection "chunks" client,
       [CallCreateCollection "chunks" schema])
    else (client, []) in
  (client,
   calls ++ [CallCreateIndex "chunks" chunks_index_params;
             CallLoadCollection "chunks"]).


Section Startup.
Variable py_int_of_str : string -> result Z.


End Startup.


(** ** The chatbot and the response engine *)

(** What a chat turn does to the outside: the calls of the long-term memory,
    and the calls to the short-term memory, the templates and the model. *)
Inductive chat_event :=
| EvLongTermMemory (ev : event)
| EvAddMessage (role content : string)
| EvRecallMessages (limit : Z) (to_str : bool)
| EvTemplateGet (name : string) (arguments : list (string * string))
| EvChat (model : string) (messages : list (string * string)).

(** A computation of the chatbot: it returns or raises, and leaves its
    trace. *)
Definition CM (A : Type) : Type := result A * list chat_event.

Definition cret {A} (a : A) : CM A := (Ok a, []).
Definition craise {A} (e : exn) : CM A := (Raise e, []).

Definition cbind {A B} (m : CM A) (k : A -> CM B) : CM B :=
  match m with
  | (Ok a, t) => let '(r, t') := k a in (r, t ++ t')
  | (Raise e, t) => (Raise e, t)
  end.

Definition ccall {A} (ev : chat_event) (r : result A) : CM A := (r, [ev]).

(** A computation of the long-term memory, run inside a chat turn. *)
Definition of_memory {A} (m : M A) : CM A :=
  (outcome m, map EvLongTermMemory (trace m)).

Notation "x <-- m ;; k" := (cbind m (fun x => k))
  (at level 100, m at next level, right associativity) : py_scope.
Notation "m ;;;; k" := (cbind m (fun _ => k))
  (at level 100, right associativity) : py_scope.

(** [self] of [Chatbot], with the response engine it holds.  The short-term
    memory, the template manager and the chat function of the model server
    are collaborators; [inference_model] and [default_inference_model] are
    the two settings read from the configuration. *)
Record Chatbot := {
  long_term_mem : LongTermMemory;
  add_message : string -> string -> result unit;
  recall_messages : Z -> bool -> result string;
  template_get : string -> list (string * string) -> result string;
  chat : string -> list (string * string)
         -> result (gmap string (gmap string pyval));
  inference_model : string;
  default_inference_model : string;
}.

(** [ResponseEngine.generate_response]: the system message is rendered for
    the model of the engine, the chat goes to the default model. *)
Definition generate_response (bot : Chatbot) (llm_prompt : string) : CM pyval :=
  let arguments := [("model", inference_model bot)] in
  system_message <-- ccall (EvTemplateGet "system_message" arguments)
                           (template_get bot "system_message" arguments) ;;
  let messages := [("system", system_message); ("user", llm_prompt)] in
  response <-- ccall (EvChat (default_inference_model bot) messages)
                     (chat bot (default_inference_model bot) messages) ;;
  match response !! "message" with
  | None => craise (KeyError "message")
  | Some message =>
      match message !! "content" with
      | None => craise (KeyError "content")
      | Some content => cret content
      end
  end.

(** [_create_query]: the prompt as it is. *)
Definition _create_query (prompt recent_messages : string) : string := prompt.

Definition llm_prompt_arguments (query context : string)
  : list (string * string) :=
  [("query", query); ("context", context)].

Definition respond_w_context (bot : Chatbot) (user_prompt : string)
  : CM string :=
  context_sources <--
    of_memory (get_context (long_term_mem bot) user_prompt 2) ;;
  let context := fst context_sources in
  llm_prompt <--
    ccall (EvTemplateGet "llm_prompt" (llm_prompt_arguments user_prompt context))
          (template_get bot "llm_prompt"
             (llm_prompt_arguments user_prompt context)) ;;
  response <-- generate_response bot llm_prompt ;;
  cret ("RESPONSE: " +:+ py_str response +:+ nl +:+ nl
        +:+ "CONTEXT: " +:+ context).

Definition respond_w_sources (bot : Chatbot) (user_prompt : string)
  : CM string :=
  ccall (EvAddMessage "user" user_prompt) (add_message bot "user" user_prompt)
  ;;;;
  recent_messages <-- ccall (EvRecallMessages 5 true)
                            (recall_messages bot 5 true) ;;
  let query := _create_query user_prompt recent_messages in
  context_sources <-- of_memory (get_context (long_term_mem bot) query 2) ;;
  let context := fst context_sources in
  let sources := snd context_sources in
  llm_prompt <--
    ccall (EvTemplateGet "llm_prompt" (llm_prompt_arguments query context))
          (template_get bot "llm_prompt" (llm_prompt_arguments query context)) ;;
  response <-- generate_response bot llm_prompt ;;
  let response_n_sources := py_str response +:+ nl +:+ nl +:+ sources in
  ccall (EvAddMessage "assistant" response_n_sources)
        (add_message bot "assistant" response_n_sources) ;;;;
  cret response_n_sources.

(** The calls a trace makes to the model. *)
Definition chat_calls (t : list chat_event)
  : list (string * list (string * string)) :=
  omap (fun ev => match ev with
                  | EvChat model messages => Some (model, messages)
                  | _ => None
                  end) t.

(** The messages a trace adds to the short-term memory. *)
Definition added_messages (t : list chat_event) : list (string * string) :=
  omap (fun ev => match ev with
                  | EvAddMessage role content => Some (role, content)
                  | _ => None
                  end) t.

(** A chatbot over the memory that finds every document: it keeps every
    message, renders a template as the query it is given, and has a model
    that answers with one word. *)
Definition example_chatbot (ltm : LongTermMemory) : Chatbot := {|
  long_term_mem := ltm;
  add_message := fun _ _ => Ok tt;
  recall_messages := fun _ _ => Ok "user: hola";
  template_get := fun name arguments =>
    Ok (name +:+ ":" +:+ default EmptyString (snd <$> head arguments));
  chat := fun _ _ => Ok {[ "message" := {[ "content" := PyStr "vale" ]} ]};
  inference_model := "llama3";
  default_inference_model := "phi3";
|}.

(** The context and the sources of the example query in the memory that
    finds every document. *)
Definition example_context_sources : string * string :=
  match outcome (get_context found_memory "hola" 2) with
  | Ok context_sources => context_sources
  | Raise _ => (EmptyString, EmptyString)
  end.

(** ** The evaluator: reading the pages of a pdf *)

(** [self] of [Evaluator], as far as [read_pdf] reads it: what opening the
    pdf gives, a list of pages whose text may fail to come out, and the
    number of pages asked for. *)
Module Evaluator.
Record t := mk {
  open_pdf : result (list (result string));
  num_pages : option Z;
}.
End Evaluator.

(** [self.num_pages and len(pages) >= self.num_pages] *)
Definition enough_pages (num_pages : option Z) (pages : list string) : bool :=
  match num_pages with
  | None => false
  | Some n => negb (n =? 0) && (len pages >=? n)
  end.

(** The loop of [read_pdf] on the pages left, with the texts read so far; a
    page whose text raises ends the reading, as the handler around the loop
    returns what was read. *)
Fixpoint read_pages
    (num_pages : option Z) (doc : list (result string)) (pages : list string)
  : list string :=
  match doc with
  | [] => pages
  | page :: rest =>
      if enough_pages num_pages pages then pages
      else
        match page with
        | Ok text => read_pages num_pages rest (pages ++ [text])
        | Raise _ => pages
        end
  end.

Definition read_pdf (self : Evaluator.t) : list string :=
  match Evaluator.open_pdf self with
  | Ok doc => read_pages (Evaluator.num_pages self) doc []
  | Raise _ => []
  end.

(** The texts of the pages before the first one that raises. *)
Fixpoint readable_prefix (doc : list (result string)) : list string :=
  match doc with
  | Ok text :: rest => text :: readable_prefix rest
  | _ => []
  end.

(** ** Records without the insertion, and the transposed insertion *)

(** [_process_documents]: the chunk records of some documents, not
    inserted. *)
Definition _process_documents
    (self : LongTermMemory) (documents : list Document.t)
  : M (list ChunkRecord.t) :=
  let chunk_records := [] in
  chunks <- call (EvChunkDocuments documents)
                 (_chunk_documents self documents) ;;
  records <- _generate_chunk_records self chunks ;;
  ret (chunk_records ++ records).

(** The length of the shortest row; 0 when there is no row. *)
Definition shortest {A} (rows : list (list A)) : nat :=
  match rows with
  | [] => 0%nat
  | row :: rest =>
      fold_right (fun r acc => Nat.min (length r) acc) (length row) rest
  end.

(** The column of index [k] of some rows that all have one. *)
Definition column {A} (k : nat) (rows : list (list A)) : list A :=
  omap (fun row : list A => row !! k) rows.

(** The list of [zip] on the unpacked rows: the columns, as many as the
    shortest row is long. *)
Definition py_zip_star {A} (rows : list (list A)) : list (list A) :=
  map (fun k => column k rows) (seq 0 (shortest rows)).

(** [_insert_doc_records] on records given as lists of field values;
    [docs_insert] is the insertion into the docs collection. *)
Definition _insert_doc_records
    (docs_insert : list (string * list pyval) -> result unit)
    (doc_records : list (list pyval)) : result unit :=
  let field_values := py_zip_star doc_records in
  match py_index field_values 0 with
  | Raise e => Raise e
  | Ok ids =>
  match py_index field_values 1 with
  | Raise e => Raise e
  | Ok pages =>
  match py_index field_values 2 with
  | Raise e => Raise e
  | Ok dates =>
  match py_index field_values 3 with
  | Raise e => Raise e
  | Ok types =>
  match py_index field_values 4 with
  | Raise e => Raise e
  | Ok numbers =>
  match py_index field_values 5 with
  | Raise e => Raise e
  | Ok texts =>
      docs_insert
        [("id", ids); ("page", pages); ("date", dates); ("type", types);
         ("number", numbers); ("text", texts)]
  end end end end end end.

(** The example memory with a document engine that reads the two example
    documents from any files. *)
Definition documents_memory : LongTermMemory := {|
  dense_encode_documents := dense_encode_documents example_memory;
  dense_encode_queries := dense_encode_queries example_memory;
  sparse_encode_documents := sparse_encode_documents example_memory;
  sparse_encode_queries := sparse_encode_queries example_memory;
  extract_entities := extract_entities example_memory;
  generate_documents := fun _ _ => Ok example_documents;
  _chunk_documents := _chunk_documents example_memory;
  client_insert_docs := client_insert_docs example_memory;
  chunks_insert := chunks_insert example_memory;
  chunks_hybrid_search := chunks_hybrid_search example_memory;
  client_get := client_get example_memory;
  config_chunk_size := config_chunk_size example_memory;
  config_doc_size := config_doc_size example_memory;
|}.

(** * Properties *)

(** ** The monad *)

Lemma outcome_bind {A B} (m : M A) (k : A -> M B) :
  outcome (bind m k)
  = match outcome m with Ok a => outcome (k a) | Raise e => Raise e end.
Proof.
  unfold outcome, bind. destruct m as [[a|e] t]; [|reflexivity].
  cbn. destruct (k a); reflexivity.
Qed.

Lemma trace_bind {A B} (m : M A) (k : A -> M B) :
  trace (bind m k)
  = trace m ++ match outcome m with Ok a => trace (k a) | Raise _ => [] end.
Proof.
  unfold outcome, trace, bind. destruct m as [[a|e] t]; cbn.
  - destruct (k a); reflexivity.
  - by rewrite app_nil_r.
Qed.

Lemma outcome_try_except {A} (m : M A) (h : exn -> M A) :
  outcome (try_except m h)
  = match outcome m with Ok a => Ok a | Raise e => outcome (h e) end.
Proof.
  unfold outcome, try_except. destruct m as [[a|e] t]; [reflexivity|].
  cbn. destruct (h e); reflexivity.
Qed.

Lemma trace_try_except {A} (m : M A) (h : exn -> M A) :
  trace (try_except m h)
  = trace m ++ match outcome m with Ok _ => [] | Raise e => trace (h e) end.
Proof.
  unfold outcome, trace, try_except. destruct m as [[a|e] t]; cbn.
  - by rewrite app_nil_r.
  - destruct (h e); reflexivity.
Qed.

Lemma outcome_call {A} ev (r : result A) : outcome (call ev r) = r.
Proof. reflexivity. Qed.

Lemma trace_call {A} ev (r : result A) : trace (call ev r) = [ev].
Proof. reflexivity. Qed.

Lemma outcome_lift {A} (r : result A) : outcome (lift r) = r.
Proof. reflexivity. Qed.

Lemma trace_lift {A} (r : result A) : trace (lift r) = [].
Proof. reflexivity. Qed.

Lemma outcome_ret {A} (a : A) : outcome (ret a) = Ok a.
Proof. reflexivity. Qed.

Lemma trace_ret {A} (a : A) : trace (ret a) = [].
Proof. reflexivity. Qed.

Lemma outcome_raise {A} e : outcome (raise e : M A) = Raise e.
Proof. reflexivity. Qed.

Lemma trace_raise {A} e : trace (raise e : M A) = [].
Proof. reflexivity. Qed.

Lemma trace_pair {A} (r : result A) t : trace (r, t) = t.
Proof. reflexivity. Qed.

Lemma run_eq {A} (m : M A) : m = (outcome m, trace m).
Proof. by destruct m. Qed.

(** One step of a run: the outcome and the trace of a sequence, of a call
    and of a handler, and the reduction that shows the next step. *)
Ltac run_step :=
  repeat first
    [ rewrite outcome_bind | rewrite trace_bind
    | rewrite outcome_try_except | rewrite trace_try_except
    | rewrite outcome_call | rewrite trace_call
    | rewrite outcome_lift | rewrite trace_lift
    | rewrite outcome_ret | rewrite trace_ret
    | rewrite outcome_raise | rewrite trace_raise ];
  cbv beta iota zeta.

Ltac run_step_in H :=
  repeat first
    [ rewrite outcome_bind in H | rewrite trace_bind in H
    | rewrite outcome_try_except in H | rewrite trace_try_except in H
    | rewrite outcome_call in H | rewrite trace_call in H
    | rewrite outcome_lift in H | rewrite trace_lift in H
    | rewrite outcome_ret in H | rewrite trace_ret in H
    | rewrite outcome_raise in H | rewrite trace_raise in H ];
  cbv beta iota zeta in H.

Lemma py_index_ok {A} (l : list A) i x : py_index l i = Ok x <-> l !! i = Some x.
Proof.
  unfold py_index. destruct (l !! i); split; intros H; congruence.
Qed.

(** ** Chunk records *)

Lemma chunk_records_loop_ok self dense sparse chunks :
  forall i records out,
    outcome (chunk_records_loop self dense sparse i chunks records) = Ok out ->
    exists new,
      out = records ++ new
      /\ length new = length chunks
      /\ forall j chunk,
           chunks !! j = Some chunk ->
           exists r, new !! j = Some r
                     /\ record_of self dense sparse (i + j) chunk r.
Proof.
  induction chunks as [|chunk rest IH]; intros i records out H.
  - cbn [chunk_records_loop] in H. rewrite outcome_ret in H.
    exists []. rewrite app_nil_r.
    split; [congruence|]. split; [reflexivity|]. intros j c Hj. discriminate.
  - cbn [chunk_records_loop] in H.
    run_step_in H.
    destruct (extract_entities self (Document.text chunk)) as [tagged|] eqn:Htag;
      [|discriminate].
    run_step_in H.
    destruct (py_index dense i) as [dv|] eqn:Hd; [|discriminate].
    run_step_in H.
    destruct (py_index sparse i) as [sv|] eqn:Hs; [|discriminate].
    cbv beta iota in H.
    apply IH in H as (new & -> & Hlen & Hnew).
    eexists (_ :: new). split; [by rewrite <- app_assoc|].
    split; [simpl; by rewrite Hlen|].
    intros [|j] c Hj.
    + injection Hj as <-. eexists. split; [reflexivity|].
      exists tagged. rewrite Nat.add_0_r. simpl.
      apply py_index_ok in Hd, Hs. by repeat split.
    + simpl in Hj. destruct (Hnew j c Hj) as (r & Hr & Hrec).
      exists r. split; [exact Hr|].
      by replace (i + S j)%nat with (S i + j)%nat by lia.
Qed.

Lemma generate_chunk_records_ok self chunks records :
  outcome (_generate_chunk_records self chunks) = Ok records ->
  exists dense sparse,
    dense_encode_documents self (map Document.text chunks) = Ok dense
    /\ sparse_encode_documents self (map Document.text chunks) = Ok sparse
    /\ length records = length chunks
    /\ forall j chunk,
         chunks !! j = Some chunk ->
         exists r, records !! j = Some r /\ record_of self dense sparse j chunk r.
Proof.
  unfold _generate_chunk_records. intros H.
  run_step_in H.
  destruct (dense_encode_documents self _) as [dense|] eqn:Hd; [|discriminate].
  run_step_in H.
  destruct (sparse_encode_documents self _) as [sparse|] eqn:Hs; [|discriminate].
  cbv beta iota in H.
  apply chunk_records_loop_ok in H as (new & -> & Hlen & Hnew).
  exists dense, sparse. repeat split; try done.
  intros j chunk Hj. destruct (Hnew j chunk Hj) as (r & Hr & Hrec).
  exists r. split; [exact Hr|].
  by rewrite map_id in Hrec.
Qed.

Lemma law_entity_exists_elem entities_list parent_document_id :
  law_entity_exists entities_list parent_document_id = true
  <-> law_entity parent_document_id ∈ entities_list.
Proof.
  unfold law_entity_exists. rewrite existsb_exists. split.
  - intros (ent & Hin & Hent). apply andb_prop in Hent as [Ht Hv].
    apply String.eqb_eq in Ht, Hv. destruct ent as [ty va]; simpl in *; subst.
    by apply list_elem_of_In.
  - intros Hin. exists (law_entity parent_document_id).
    split; [by apply list_elem_of_In|].
    simpl. by rewrite String.eqb_refl.
Qed.

Lemma inject_law_entity_elem entities_list parent_document_id :
  law_entity parent_document_id
  ∈ inject_law_entity entities_list parent_document_id.
Proof.
  unfold inject_law_entity.
  destruct (law_entity_exists _ _) eqn:H.
  - by apply law_entity_exists_elem.
  - apply elem_of_app. right. apply list_elem_of_singleton. reflexivity.
Qed.

Lemma inject_law_entity_present entities_list parent_document_id :
  law_entity parent_document_id ∈ entities_list ->
  inject_law_entity entities_list parent_document_id = entities_list.
Proof.
  intros H. apply law_entity_exists_elem in H.
  unfold inject_law_entity. by rewrite H.
Qed.

Lemma inject_law_entity_absent entities_list parent_document_id :
  law_entity parent_document_id ∉ entities_list ->
  inject_law_entity entities_list parent_document_id
  = entities_list ++ [law_entity parent_document_id].
Proof.
  intros H. unfold inject_law_entity.
  destruct (law_entity_exists _ _) eqn:E; [|reflexivity].
  by apply law_entity_exists_elem in E.
Qed.

Lemma inject_law_entity_idempotent entities_list parent_document_id :
  inject_law_entity
    (inject_law_entity entities_list parent_document_id) parent_document_id
  = inject_law_entity entities_list parent_document_id.
Proof. apply inject_law_entity_present, inject_law_entity_elem. Qed.

(** C2: every record [_generate_chunk_records] returns carries the LAW entity
    whose value is the part of the chunk id before the first underscore; the
    entity is appended to the tagged entities when the tagger did not give it,
    and when the tagger gave it the tagged entities are kept as they are, so
    that a second injection changes nothing and no LAW entry is doubled. *)
Theorem C2_law_entity_of_parent_document self chunks records :
  outcome (_generate_chunk_records self chunks) = Ok records ->
  forall j r,
    records !! j = Some r ->
    exists chunk tagged,
      chunks !! j = Some chunk
      /\ ChunkRecord.id r = Document.id chunk
      /\ extract_entities self (Document.text chunk) = Ok tagged
      /\ let parent_document_id := py_split_0 underscore (ChunkRecord.id r) in
         let law := law_entity parent_document_id in
         law ∈ ChunkRecord.entities r
         /\ (law ∈ entity_dicts tagged ->
             ChunkRecord.entities r = entity_dicts tagged)
         /\ (law ∉ entity_dicts tagged ->
             ChunkRecord.entities r = entity_dicts tagged ++ [law])
         /\ inject_law_entity (ChunkRecord.entities r) parent_document_id
            = ChunkRecord.entities r
         /\ count_occ Entity.eq_dec (ChunkRecord.entities r) law
            = Nat.max 1 (count_occ Entity.eq_dec (entity_dicts tagged) law).
Proof.
  intros H j r Hr.
  apply generate_chunk_records_ok in H as (dense & sparse & _ & _ & Hlen & Hrec).
  destruct (chunks !! j) as [chunk|] eqn:Hc.
  2:{ apply lookup_ge_None in Hc. apply lookup_lt_Some in Hr. lia. }
  destruct (Hrec j chunk Hc) as (r' & Hr' & tagged & Htag & _ & _ & Hid & _ & _ & Hent).
  assert (r' = r) as -> by congruence.
  exists chunk, tagged. repeat split; try done.
  all: rewrite Hid, Hent; unfold chunk_entities; cbv zeta.
  - apply inject_law_entity_elem.
  - apply inject_law_entity_present.
  - apply inject_law_entity_absent.
  - apply inject_law_entity_idempotent.
  - set (law := law_entity _).
    destruct (decide (law ∈ entity_dicts tagged)) as [Hin|Hout].
    + rewrite inject_law_entity_present by done.
      apply list_elem_of_In, (count_occ_In Entity.eq_dec) in Hin. lia.
    + rewrite inject_law_entity_absent by done.
      rewrite count_occ_app, (count_occ_cons_eq _ _ (eq_refl law)).
      assert (count_occ Entity.eq_dec (entity_dicts tagged) law = 0%nat) as ->.
      { apply count_occ_not_In. by rewrite <- list_elem_of_In. }
      reflexivity.
Qed.

Lemma C2_law_entity_witness :
  outcome (_generate_chunk_records example_memory example_chunks)
  = Ok example_records
  /\ exists chunk tagged,
       example_chunks !! 0%nat = Some chunk
       /\ ChunkRecord.id example_record_0 = Document.id chunk
       /\ extract_entities example_memory (Document.text chunk) = Ok tagged
       /\ let parent_document_id :=
            py_split_0 underscore (ChunkRecord.id example_record_0) in
          let law := law_entity parent_document_id in
          law ∈ ChunkRecord.entities example_record_0
          /\ (law ∈ entity_dicts tagged ->
              ChunkRecord.entities example_record_0 = entity_dicts tagged)
          /\ (law ∉ entity_dicts tagged ->
              ChunkRecord.entities example_record_0
              = entity_dicts tagged ++ [law])
          /\ inject_law_entity
               (ChunkRecord.entities example_record_0) parent_document_id
             = ChunkRecord.entities example_record_0
          /\ count_occ Entity.eq_dec (ChunkRecord.entities example_record_0) law
             = Nat.max 1 (count_occ Entity.eq_dec (entity_dicts tagged) law).
Proof.
  assert (outcome (_generate_chunk_records example_memory example_chunks)
          = Ok example_records) as H by (vm_compute; reflexivity).
  split; [exact H|].
  exact (C2_law_entity_of_parent_document
           example_memory example_chunks example_records H
           0%nat example_record_0 eq_refl).
Defined.

(** ** Embedding calls *)

Lemma chunk_records_loop_trace self dense sparse chunks :
  forall i records,
    Forall (fun ev => is_extract_entities ev = true)
           (trace (chunk_records_loop self dense sparse i chunks records)).
Proof.
  induction chunks as [|chunk rest IH]; intros i records.
  - constructor.
  - cbn [chunk_records_loop].
    run_step. constructor; [reflexivity|].
    destruct (extract_entities self _); [|constructor].
    run_step. rewrite app_nil_l.
    destruct (py_index dense i); [|constructor].
    run_step. rewrite app_nil_l.
    destruct (py_index sparse i); [|constructor].
    apply IH.
Qed.




(** ** Chunk ids and parent ids *)

Lemma generate_chunk_records_trace self chunks :
  Forall (fun ev => is_record_call ev = true)
         (trace (_generate_chunk_records self chunks)).
Proof.
  unfold _generate_chunk_records. run_step.
  constructor; [reflexivity|].
  destruct (dense_encode_documents self _); [|constructor].
  run_step. constructor; [reflexivity|].
  destruct (sparse_encode_documents self _); [|constructor].
  cbv beta iota.
  eapply Forall_impl; [apply chunk_records_loop_trace|].
  intros ev Hev. unfold is_record_call. rewrite Hev. apply orb_true_r.
Qed.


Lemma chunked_of_record_calls (t : list event) :
  Forall (fun ev => is_record_call ev = true) t ->
  chunked_batches t = [].
Proof.
  induction 1 as [|ev t Hev _ IH]; [reflexivity|].
  simpl. rewrite IH. by destruct ev.
Qed.


Lemma chunked_batches_app (t1 t2 : list event) :
  chunked_batches (t1 ++ t2) = chunked_batches t1 ++ chunked_batches t2.
Proof. unfold chunked_batches. apply omap_app. Qed.







(** ** Batches and the resume offset *)

Lemma process_batch_ok self documents batch_size start_from i :
  outcome (run_batch self documents batch_size start_from i) = Ok tt ->
  process_batch self documents batch_size start_from i
  = (Ok tt, trace (run_batch self documents batch_size start_from i)).
Proof.
  intros H. rewrite (run_eq (process_batch _ _ _ _ _)).
  unfold process_batch. fold (run_batch self documents batch_size start_from i).
  run_step. rewrite H. by rewrite app_nil_r.
Qed.

Lemma process_batch_raise self documents batch_size start_from i e :
  outcome (run_batch self documents batch_size start_from i) = Raise e ->
  process_batch self documents batch_size start_from i
  = (Raise e,
     trace (run_batch self documents batch_size start_from i)
     ++ [EvLogError (batch_start_idx start_from batch_size i + batch_size)]).
Proof.
  intros H. rewrite (run_eq (process_batch _ _ _ _ _)).
  unfold process_batch. fold (run_batch self documents batch_size start_from i).
  run_step. rewrite H. run_step. reflexivity.
Qed.

Lemma process_batches_ok self documents batch_size start_from indices :
  Forall (fun j => outcome (run_batch self documents batch_size start_from j)
                   = Ok tt) indices ->
  process_batches self documents batch_size start_from indices
  = (Ok tt,
     flat_map (fun j => trace (run_batch self documents batch_size start_from j))
              indices).
Proof.
  induction 1 as [|j indices Hj _ IH]; [reflexivity|].
  cbn [process_batches flat_map].
  rewrite (process_batch_ok _ _ _ _ _ Hj), IH. reflexivity.
Qed.

Lemma process_batches_raise self documents batch_size start_from done i rest e :
  Forall (fun j => outcome (run_batch self documents batch_size start_from j)
                   = Ok tt) done ->
  outcome (run_batch self documents batch_size start_from i) = Raise e ->
  process_batches self documents batch_size start_from (done ++ i :: rest)
  = (Raise e,
     flat_map (fun j => trace (run_batch self documents batch_size start_from j))
              (done ++ [i])
     ++ [EvLogError (batch_start_idx start_from batch_size i + batch_size)]).
Proof.
  intros Hdone Hi. induction Hdone as [|j done Hj _ IH].
  - cbn [app process_batches flat_map].
    rewrite (process_batch_raise _ _ _ _ _ _ Hi). cbn. by rewrite app_nil_r.
  - cbn [app process_batches flat_map].
    rewrite (process_batch_ok _ _ _ _ _ Hj), IH. cbn. by rewrite <- app_assoc.
Qed.

Lemma run_batch_chunked self documents batch_size start_from i :
  chunked_batches (trace (run_batch self documents batch_size start_from i))
  = [batch_documents documents start_from batch_size i].
Proof.
  unfold run_batch, _process_and_insert_chunk_batch. run_step.
  cbn [app chunked_batches omap list_omap]. f_equal.
  destruct (_chunk_documents self _) as [chunks|]; [|reflexivity].
  run_step. rewrite chunked_batches_app.
  rewrite (chunked_of_record_calls _ (generate_chunk_records_trace _ _)).
  destruct (outcome (_generate_chunk_records self chunks)); [|reflexivity].
  reflexivity.
Qed.

Lemma run_batch_logged self documents batch_size start_from i :
  logged_offsets (trace (run_batch self documents batch_size start_from i)) = [].
Proof.
  unfold run_batch, _process_and_insert_chunk_batch. run_step.
  cbn [app logged_offsets omap list_omap].
  destruct (_chunk_documents self _) as [chunks|]; [|reflexivity].
  run_step. unfold logged_offsets. rewrite omap_app.
  assert (omap (fun ev => match ev with
                          | EvLogError next_start_from => Some next_start_from
                          | _ => None
                          end)
               (trace (_generate_chunk_records self chunks)) = []) as ->.
  { pose proof (generate_chunk_records_trace self chunks) as H.
    induction H as [|ev t Hev _ IH]; [reflexivity|].
    cbn. rewrite IH. by destruct ev. }
  destruct (outcome (_generate_chunk_records self chunks)); reflexivity.
Qed.

Lemma chunked_batches_runs self documents batch_size start_from indices :
  chunked_batches
    (flat_map (fun j => trace (run_batch self documents batch_size start_from j))
              indices)
  = map (batch_documents documents start_from batch_size) indices.
Proof.
  induction indices as [|j indices IH]; [reflexivity|].
  cbn [flat_map map]. rewrite chunked_batches_app, run_batch_chunked, IH.
  reflexivity.
Qed.

Lemma logged_offsets_app (t1 t2 : list event) :
  logged_offsets (t1 ++ t2) = logged_offsets t1 ++ logged_offsets t2.
Proof. unfold logged_offsets. apply omap_app. Qed.

Lemma logged_offsets_runs self documents batch_size start_from indices :
  logged_offsets
    (flat_map (fun j => trace (run_batch self documents batch_size start_from j))
              indices)
  = [].
Proof.
  induction indices as [|j indices IH]; [reflexivity|].
  cbn [flat_map]. by rewrite logged_offsets_app, IH, run_batch_logged.
Qed.

(** The run of [_process_and_insert_chunks] when the batch of index [i] is
    the first to raise. *)
Lemma process_and_insert_chunks_raise
    self documents batch_size start_from (i : nat) e :
  batch_size <> 0 ->
  (i < Z.to_nat (num_batches documents batch_size start_from))%nat ->
  (forall j, (j < i)%nat ->
     outcome (run_batch self documents batch_size start_from j) = Ok tt) ->
  outcome (run_batch self documents batch_size start_from i) = Raise e ->
  _process_and_insert_chunks self documents batch_size start_from
  = (Raise e,
     flat_map
       (fun j => trace (run_batch self documents batch_size start_from j))
       (seq 0 (S i))
     ++ [EvLogError (batch_start_idx start_from batch_size i + batch_size)]).
Proof.
  intros Hbs Hi Hdone Hfail. unfold _process_and_insert_chunks.
  destruct (batch_size =? 0) eqn:E; [apply Z.eqb_eq in E; contradiction|].
  set (n := Z.to_nat (num_batches documents batch_size start_from)) in *.
  replace (seq 0 n) with (seq 0 i ++ i :: seq (S i) (n - S i)).
  2:{ replace n with (i + S (n - S i))%nat at 2 by lia.
      rewrite seq_app. reflexivity. }
  rewrite (process_batches_raise _ _ _ _ _ _ _ e).
  - rewrite seq_S. reflexivity.
  - apply Forall_forall. intros j Hj. apply Hdone.
    apply list_elem_of_In, in_seq in Hj. lia.
  - exact Hfail.
Qed.

(** C4: when the batch that starts at [start_idx] raises, after the batches
    before it went through, [_process_and_insert_chunks] raises the same
    exception, its trace is the runs of the batches up to that one, each once,
    followed by the log of [start_idx + batch_size], and no later batch is
    touched.  For 45 documents in batches of 10 with a store that fails on the
    fourth batch the logged offset is 40, and a run with [start_from = 40]
    hands the chunker one batch, the last 5 documents. *)
Theorem C4_resume_offset_logged_and_reraised :
  (forall self documents batch_size start_from (i : nat) e,
     batch_size <> 0 ->
     (i < Z.to_nat (num_batches documents batch_size start_from))%nat ->
     (forall j, (j < i)%nat ->
        outcome (run_batch self documents batch_size start_from j) = Ok tt) ->
     outcome (run_batch self documents batch_size start_from i) = Raise e ->
     let run := _process_and_insert_chunks self documents batch_size start_from in
     let start_idx := batch_start_idx start_from batch_size i in
     outcome run = Raise e
     /\ trace run
        = flat_map
            (fun j => trace (run_batch self documents batch_size start_from j))
            (seq 0 (S i))
          ++ [EvLogError (start_idx + batch_size)]
     /\ logged_offsets (trace run) = [start_idx + batch_size]
     /\ chunked_batches (trace run)
        = map (batch_documents documents start_from batch_size) (seq 0 (S i)))
  /\ (let first_run :=
        _process_and_insert_chunks failing_memory example_corpus 10 0 in
      let second_run :=
        _process_and_insert_chunks failing_memory example_corpus 10 40 in
      outcome first_run = Raise store_unavailable
      /\ logged_offsets (trace first_run) = [40]
      /\ chunked_batches (trace first_run)
         = [py_slice example_corpus 0 10; py_slice example_corpus 10 20;
            py_slice example_corpus 20 30; py_slice example_corpus 30 40]
      /\ outcome second_run = Ok tt
      /\ logged_offsets (trace second_run) = []
      /\ chunked_batches (trace second_run) = [drop 40 example_corpus]
      /\ length (drop 40 example_corpus) = 5%nat).
Proof.
  split.
  - intros self documents batch_size start_from i e Hbs Hi Hdone Hfail run start_idx.
    pose proof (process_and_insert_chunks_raise
                  self documents batch_size start_from i e Hbs Hi Hdone Hfail)
      as Hrun.
    fold run start_idx in Hrun.
    rewrite Hrun, trace_pair.
    split; [reflexivity|]. split; [reflexivity|]. split.
    + rewrite logged_offsets_app, logged_offsets_runs. reflexivity.
    + rewrite chunked_batches_app, chunked_batches_runs. apply app_nil_r.
  - vm_compute. repeat split.
Qed.

Lemma C4_resume_offset_witness :
  outcome (_process_and_insert_chunks failing_memory example_corpus 10 0)
  = Raise store_unavailable
  /\ trace (_process_and_insert_chunks failing_memory example_corpus 10 0)
     = flat_map
         (fun j => trace (run_batch failing_memory example_corpus 10 0 j))
         (seq 0 4)
       ++ [EvLogError (batch_start_idx 0 10 3 + 10)]
  /\ logged_offsets
       (trace (_process_and_insert_chunks failing_memory example_corpus 10 0))
     = [batch_start_idx 0 10 3 + 10]
  /\ chunked_batches
       (trace (_process_and_insert_chunks failing_memory example_corpus 10 0))
     = map (batch_documents example_corpus 0 10) (seq 0 4).
Proof.
  apply (proj1 C4_resume_offset_logged_and_reraised
           failing_memory example_corpus 10 0 3%nat store_unavailable).
  - lia.
  - vm_compute. lia.
  - intros j Hj. destruct j as [|[|[|j]]]; [vm_compute; reflexivity ..|lia].
  - vm_compute. reflexivity.
Defined.

(** ** Deleting collections *)

Lemma drop_collections_foldl (collections : list string) :
  forall client : MilvusClient.t,
    foldl (fun client collection_name =>
             MilvusClient.drop_collection collection_name client)
          client collections
    = client ∖ list_to_set collections.
Proof.
  induction collections as [|name rest IH]; intros client; simpl.
  - set_solver.
  - rewrite IH. unfold MilvusClient.drop_collection. set_solver.
Qed.

(** C10: [delete_documents("all")] leaves no collection in the store, whatever
    collections it held; with any other argument the store loses that one
    collection and keeps every other one. *)
Theorem C10_delete_documents_frame (client : MilvusClient.t) collection :
  (forall name, name ∉ delete_documents client "all")
  /\ delete_documents client "all" = ∅
  /\ (collection <> "all" ->
      delete_documents client collection = client ∖ {[collection]}
      /\ forall name,
           name ∈ delete_documents client collection
           <-> name ∈ client /\ name <> collection).
Proof.
  assert (delete_documents client "all" = ∅) as Hall.
  { unfold delete_documents. simpl.
    rewrite drop_collections_foldl. unfold MilvusClient.list_collections.
    rewrite list_to_set_elements_L. set_solver. }
  split; [rewrite Hall; set_solver|]. split; [exact Hall|].
  intros Hne. unfold delete_documents.
  destruct (String.eqb collection "all") eqn:E.
  - apply String.eqb_eq in E. contradiction.
  - unfold MilvusClient.drop_collection. split; [reflexivity|]. set_solver.
Qed.

(** ** Parent documents *)

Lemma filter_twice {A} (f g : A -> bool) (l : list A) :
  List.filter f (List.filter g l) = List.filter (fun x => g x && f x) l.
Proof.
  induction l as [|x l IH]; [reflexivity|].
  simpl. destruct (g x); simpl; [destruct (f x)|]; by rewrite IH.
Qed.

Lemma filter_all {A} (f : A -> bool) (l : list A) :
  (forall x, f x = true) -> List.filter f l = l.
Proof.
  intros H. induction l as [|x l IH]; [reflexivity|].
  simpl. by rewrite H, IH.
Qed.

Lemma not_among_seen seen p (l : list string) :
  p ∈ seen ->
  List.filter (not_among seen)
    (List.filter (fun y => negb (String.eqb y p)) l)
  = List.filter (not_among seen) l.
Proof.
  intros Hp. rewrite filter_twice. apply List.filter_ext. intros y.
  unfold not_among. destruct (String.eqb_spec y p) as [->|]; [|reflexivity].
  by rewrite bool_decide_eq_true_2.
Qed.

Lemma not_among_snoc seen p (l : list string) :
  List.filter (not_among seen)
    (List.filter (fun y => negb (String.eqb y p)) l)
  = List.filter (not_among (seen ++ [p])) l.
Proof.
  rewrite filter_twice. apply List.filter_ext. intros y.
  unfold not_among. destruct (String.eqb_spec y p) as [->|Hne]; simpl.
  - rewrite (bool_decide_eq_true_2 (p ∈ seen ++ [p])); [reflexivity|].
    set_solver.
  - apply f_equal, bool_decide_ext. set_solver.
Qed.

(** While fewer than [n_docs] parents are collected, the loop gives the
    first [n_docs] of the collected ids followed by the new first
    occurrences. *)
Lemma unique_parent_ids_loop_take response n_docs :
  forall seen,
    len seen < n_docs ->
    unique_parent_ids_loop response n_docs seen
    = take (Z.to_nat n_docs)
        (seen ++ List.filter (not_among seen)
                   (first_occurrences (map Hit.parent_id response))).
Proof.
  unfold len.
  induction response as [|hit rest IH]; intros seen Hlen; simpl.
  - rewrite app_nil_r, take_ge; [reflexivity|lia].
  - destruct (decide (Hit.parent_id hit ∈ seen)) as [Hin|Hout].
    + rewrite (bool_decide_eq_true_2 _ Hin).
      unfold not_among at 1. rewrite (bool_decide_eq_true_2 _ Hin). simpl.
      rewrite not_among_seen by done. by apply IH.
    + rewrite (bool_decide_eq_false_2 _ Hout).
      unfold not_among at 1. rewrite (bool_decide_eq_false_2 _ Hout). simpl.
      rewrite not_among_snoc.
      set (new := List.filter _ _).
      change (seen ++ Hit.parent_id hit :: new)
        with (seen ++ [Hit.parent_id hit] ++ new).
      rewrite (app_assoc seen).
      unfold len. destruct (Z.eqb_spec (Z.of_nat (length (seen ++ [Hit.parent_id hit]))) n_docs)
        as [Heq|Hne].
      * rewrite take_app_length'; [reflexivity|lia].
      * apply IH. rewrite length_app in *. simpl in *. lia.
Qed.

(** Once [n_docs] or more are collected (as from the start when [n_docs] is
    not positive), the test of the loop never holds and every new parent is
    collected. *)
Lemma unique_parent_ids_loop_all response n_docs :
  forall seen,
    n_docs <= len seen ->
    unique_parent_ids_loop response n_docs seen
    = seen ++ List.filter (not_among seen)
                (first_occurrences (map Hit.parent_id response)).
Proof.
  unfold len.
  induction response as [|hit rest IH]; intros seen Hlen; simpl.
  - by rewrite app_nil_r.
  - destruct (decide (Hit.parent_id hit ∈ seen)) as [Hin|Hout].
    + rewrite (bool_decide_eq_true_2 _ Hin).
      unfold not_among at 1. rewrite (bool_decide_eq_true_2 _ Hin). simpl.
      rewrite not_among_seen by done. by apply IH.
    + rewrite (bool_decide_eq_false_2 _ Hout).
      unfold not_among at 1. rewrite (bool_decide_eq_false_2 _ Hout). simpl.
      rewrite not_among_snoc.
      set (new := List.filter _ _).
      change (seen ++ Hit.parent_id hit :: new)
        with (seen ++ [Hit.parent_id hit] ++ new).
      rewrite (app_assoc seen).
      unfold len. destruct (Z.eqb_spec (Z.of_nat (length (seen ++ [Hit.parent_id hit]))) n_docs)
        as [Heq|Hne].
      * rewrite length_app in Heq. simpl in Heq. lia.
      * apply IH. rewrite length_app. simpl. lia.
Qed.

Lemma first_occurrences_NoDup (l : list string) : NoDup (first_occurrences l).
Proof.
  induction l as [|x l IH]; simpl; [constructor|].
  constructor.
  - rewrite list_elem_of_In, filter_In. intros [_ H].
    by rewrite String.eqb_refl in H.
  - apply NoDup_ListNoDup, List.NoDup_filter, NoDup_ListNoDup, IH.
Qed.

Lemma first_occurrences_elem (l : list string) x :
  x ∈ first_occurrences l <-> x ∈ l.
Proof.
  induction l as [|y l IH]; simpl; [reflexivity|].
  rewrite !elem_of_cons, <- IH, !list_elem_of_In, filter_In.
  destruct (String.eqb_spec x y) as [->|Hne]; [tauto|].
  simpl. intuition.
Qed.

Lemma unique_parent_ids_take response n_docs :
  1 <= n_docs ->
  unique_parent_ids response n_docs
  = take (Z.to_nat n_docs) (first_occurrences (map Hit.parent_id response)).
Proof.
  intros Hk. unfold unique_parent_ids.
  rewrite unique_parent_ids_loop_take by (unfold len; simpl; lia).
  simpl. by rewrite filter_all.
Qed.

(** For a positive [n_docs]: the parents are the first [n_docs] distinct
    parent ids of the hits, in the order of their first hit. *)
Theorem unique_parent_ids_positive response n_docs :
  1 <= n_docs ->
  unique_parent_ids response n_docs
  = take (Z.to_nat n_docs) (first_occurrences (map Hit.parent_id response))
  /\ len (unique_parent_ids response n_docs) <= n_docs
  /\ NoDup (unique_parent_ids response n_docs)
  /\ (len (first_occurrences (map Hit.parent_id response)) <= n_docs ->
      unique_parent_ids response n_docs
      = first_occurrences (map Hit.parent_id response)).
Proof.
  intros Hk. rewrite (unique_parent_ids_take response n_docs Hk). split; [reflexivity|]. unfold len. split; [|split].
  - rewrite length_take. lia.
  - eapply sublist_NoDup; [apply first_occurrences_NoDup|apply sublist_take].
  - intros Hfew. apply take_ge. lia.
Qed.

Lemma unique_parent_ids_positive_example :
  unique_parent_ids example_hits 1
  = take (Z.to_nat 1) (first_occurrences (map Hit.parent_id example_hits))
  /\ len (unique_parent_ids example_hits 1) <= 1
  /\ NoDup (unique_parent_ids example_hits 1)
  /\ (len (first_occurrences (map Hit.parent_id example_hits)) <= 1 ->
      unique_parent_ids example_hits 1
      = first_occurrences (map Hit.parent_id example_hits)).
Proof. apply unique_parent_ids_positive. lia. Defined.

(** C3: with [n_docs] at most 0 the parents [_retrieve_parent_documents]
    collects are all the distinct parent ids of the hits, not at most
    [n_docs] of them: the test on the length is made after an id is appended
    and never holds. *)
Theorem C3_nonpositive_n_docs_collects_all response n_docs :
  n_docs <= 0 ->
  unique_parent_ids response n_docs
  = first_occurrences (map Hit.parent_id response).
Proof.
  intros Hk. unfold unique_parent_ids.
  rewrite unique_parent_ids_loop_all by (unfold len; simpl; lia).
  simpl. by apply filter_all.
Qed.

Lemma C3_zero_docs_witness :
  unique_parent_ids example_hits 0
  = first_occurrences (map Hit.parent_id example_hits)
  /\ unique_parent_ids example_hits 0 = ["7"; "8"].
Proof.
  split; [|reflexivity].
  apply C3_nonpositive_n_docs_collects_all. lia.
Defined.

(** ** The searches of a query *)

(** The run of [_find_relevant_chunks] once the embeddings and the entities
    of the query are there, when entities were extracted. *)
Lemma find_relevant_chunks_with_entities
    self query n_results dense dense_0 sparse extracted :
  dense_encode_queries self [query] = Ok dense ->
  dense !! 0%nat = Some dense_0 ->
  sparse_encode_queries self [query] = Ok sparse ->
  extract_entities self query = Ok extracted ->
  extracted <> [] ->
  let entity_list := query_entity_list extracted in
  let search := filtered_search dense_0 sparse n_results extracted in
  _find_relevant_chunks self query n_results
  = (match chunks_hybrid_search self search with
     | Ok [] => Raise IndexError
     | Ok (response_0 :: _) =>
         let hits := List.filter (hit_matches entity_list) response_0 in
         Ok (if is_empty hits then response_0 else hits)
     | Raise e => Raise e
     end,
     [EvDenseEncodeQueries [query]; EvSparseEncodeQueries [query];
      EvExtractEntities query; EvHybridSearch search]).
Proof.
  intros Hd Hd0 Hs He Hne entity_list search.
  unfold _find_relevant_chunks, hybrid_search, bind, call, lift, ret.
  rewrite Hd. cbv beta iota zeta. unfold py_index at 1.
  rewrite Hd0. cbv beta iota zeta.
  rewrite Hs. cbv beta iota zeta.
  rewrite He. cbv beta iota zeta.
  destruct extracted as [|ent extracted]; [done|].
  cbn [is_empty]. cbv beta iota zeta.
  fold (filtered_search dense_0 sparse n_results (ent :: extracted)).
  fold search. fold entity_list.
  destruct (chunks_hybrid_search self search) as [[|response_0 rest]|e];
    [reflexivity| |reflexivity].
  unfold py_index at 1. cbn [lookup list_lookup]. cbv beta iota zeta.
  destruct (List.filter (hit_matches entity_list) response_0); reflexivity.
Qed.

(** The run when the tagger finds no entity in the query. *)
Lemma find_relevant_chunks_without_entities
    self query n_results dense dense_0 sparse :
  dense_encode_queries self [query] = Ok dense ->
  dense !! 0%nat = Some dense_0 ->
  sparse_encode_queries self [query] = Ok sparse ->
  extract_entities self query = Ok [] ->
  let search := unfiltered_search dense_0 sparse n_results in
  _find_relevant_chunks self query n_results
  = (match chunks_hybrid_search self search with
     | Ok [] => Raise IndexError
     | Ok (response_0 :: _) => Ok response_0
     | Raise e => Raise e
     end,
     [EvDenseEncodeQueries [query]; EvSparseEncodeQueries [query];
      EvExtractEntities query; EvHybridSearch search]).
Proof.
  intros Hd Hd0 Hs He search.
  unfold _find_relevant_chunks, hybrid_search, bind, call, lift, ret.
  rewrite Hd. cbv beta iota zeta. unfold py_index at 1.
  rewrite Hd0. cbv beta iota zeta.
  rewrite Hs. cbv beta iota zeta.
  rewrite He. cbv beta iota zeta.
  cbn [is_empty]. cbv beta iota zeta.
  fold (unfiltered_search dense_0 sparse n_results). fold search.
  destruct (chunks_hybrid_search self search) as [[|response_0 rest]|e];
    reflexivity.
Qed.

(** A run that returns had its query embedded and tagged. *)
Lemma find_relevant_chunks_ok_inv self query n_results :
  forall hits,
    outcome (_find_relevant_chunks self query n_results) = Ok hits ->
    exists dense dense_0 sparse extracted,
      dense_encode_queries self [query] = Ok dense
      /\ dense !! 0%nat = Some dense_0
      /\ sparse_encode_queries self [query] = Ok sparse
      /\ extract_entities self query = Ok extracted.
Proof.
  intros hits H. unfold _find_relevant_chunks in H.
  run_step_in H.
  destruct (dense_encode_queries self [query]) as [dense|] eqn:Hd;
    [|discriminate].
  run_step_in H. unfold py_index at 1 in H.
  destruct (dense !! 0%nat) as [dense_0|] eqn:Hd0; [|discriminate].
  run_step_in H.
  destruct (sparse_encode_queries self [query]) as [sparse|] eqn:Hs;
    [|discriminate].
  run_step_in H.
  destruct (extract_entities self query) as [extracted|] eqn:He;
    [|discriminate].
  by exists dense, dense_0, sparse, extracted.
Qed.

(** Until the tagger is called no search is made. *)
Lemma find_relevant_chunks_filters self query n_results extracted :
  extract_entities self query = Ok extracted ->
  extracted <> [] ->
  search_filters (trace (_find_relevant_chunks self query n_results)) = []
  \/ search_filters (trace (_find_relevant_chunks self query n_results))
     = [Some (query_entity_list extracted)].
Proof.
  intros He Hne.
  destruct (dense_encode_queries self [query]) as [dense|] eqn:Hd.
  2:{ left. unfold _find_relevant_chunks. run_step. by rewrite Hd. }
  destruct (dense !! 0%nat) as [dense_0|] eqn:Hd0.
  2:{ left. unfold _find_relevant_chunks. run_step. rewrite Hd.
      run_step. unfold py_index at 1. by rewrite Hd0. }
  destruct (sparse_encode_queries self [query]) as [sparse|] eqn:Hs.
  2:{ left. unfold _find_relevant_chunks. run_step. rewrite Hd.
      run_step. unfold py_index at 1. rewrite Hd0. run_step. by rewrite Hs. }
  right.
  by rewrite (find_relevant_chunks_with_entities
                _ _ _ _ _ _ _ Hd Hd0 Hs He Hne).
Qed.

(** C1: once entities are extracted from the query, [_find_relevant_chunks]
    never issues the search without filter: the test that should start it
    looks at the number of result lists, which is not 0 after the first one
    was read.  A filtered search with no hit gives an empty result. *)
Theorem C1_no_fallback_once_entities_extracted
    self query n_results extracted :
  extract_entities self query = Ok extracted ->
  extracted <> [] ->
  (None ∉ search_filters (trace (_find_relevant_chunks self query n_results)))
  /\ forall dense dense_0 sparse rest,
       dense_encode_queries self [query] = Ok dense ->
       dense !! 0%nat = Some dense_0 ->
       sparse_encode_queries self [query] = Ok sparse ->
       chunks_hybrid_search self
         (filtered_search dense_0 sparse n_results extracted)
       = Ok ([] :: rest) ->
       outcome (_find_relevant_chunks self query n_results) = Ok []
       /\ search_filters (trace (_find_relevant_chunks self query n_results))
          = [Some (query_entity_list extracted)].
Proof.
  intros He Hne. split.
  - destruct (find_relevant_chunks_filters self query n_results _ He Hne)
      as [-> | ->]; set_solver.
  - intros dense dense_0 sparse rest Hd Hd0 Hs Hsearch.
    rewrite (find_relevant_chunks_with_entities
               _ _ _ _ _ _ _ Hd Hd0 Hs He Hne), Hsearch.
    by split.
Qed.

Lemma C1_no_fallback_witness :
  (None ∉ search_filters
            (trace (_find_relevant_chunks fallback_memory "decreto 99" 1000)))
  /\ outcome (_find_relevant_chunks fallback_memory "decreto 99" 1000) = Ok []
  /\ search_filters
       (trace (_find_relevant_chunks fallback_memory "decreto 99" 1000))
     = [Some [law_entity "99"]]
  /\ chunks_hybrid_search fallback_memory
       (unfiltered_search [1%Q] [[0%Q; 1%Q]] 1000)
     = Ok [example_hits].
Proof.
  destruct (C1_no_fallback_once_entities_extracted
              fallback_memory "decreto 99" 1000 [("LAW", "99")] eq_refl)
    as [Hnone Hempty]; [discriminate|].
  split; [exact Hnone|].
  destruct (Hempty [[1%Q]] [1%Q] [[0%Q; 1%Q]] [] eq_refl eq_refl eq_refl eq_refl)
    as [Hout Hfilters].
  split; [exact Hout|]. split; [exact Hfilters|reflexivity].
Defined.

(** When the tagger finds nothing the search is made once, without filter. *)
Lemma find_relevant_chunks_no_entities_filters
    self query n_results dense dense_0 sparse :
  dense_encode_queries self [query] = Ok dense ->
  dense !! 0%nat = Some dense_0 ->
  sparse_encode_queries self [query] = Ok sparse ->
  extract_entities self query = Ok [] ->
  search_filters (trace (_find_relevant_chunks self query n_results)) = [None].
Proof.
  intros Hd Hd0 Hs He.
  by rewrite (find_relevant_chunks_without_entities _ _ _ _ _ _ Hd Hd0 Hs He).
Qed.

(** ** The check of the hits on the client side *)

Lemma hit_matches_elem entity_list hit :
  hit_matches entity_list hit = true
  <-> exists ent, ent ∈ entity_list /\ ent ∈ Hit.entities hit.
Proof.
  unfold hit_matches. rewrite existsb_exists. split.
  - intros (ent & Hin & Hent). exists ent.
    split; [by apply list_elem_of_In|by apply bool_decide_eq_true in Hent].
  - intros (ent & Hin & Hent). exists ent.
    split; [by apply list_elem_of_In|by apply bool_decide_eq_true].
Qed.




(** ** Lookups and the context *)

Lemma get_document_by_id_never_raises self data_id :
  exists document, outcome (_get_document_by_id self data_id) = Ok document.
Proof.
  unfold _get_document_by_id. rewrite outcome_try_except.
  destruct (outcome _) as [document|e]; eauto.
Qed.

Lemma get_document_by_id_miss self data_id :
  client_get self "docs" [data_id] = Ok [] ->
  outcome (_get_document_by_id self data_id) = Ok None.
Proof.
  intros H. unfold _get_document_by_id. run_step. by rewrite H.
Qed.

Lemma get_documents_ok self parent_ids :
  exists documents,
    outcome (get_documents self parent_ids) = Ok documents
    /\ Forall2
         (fun parent_id document =>
            outcome (_get_document_by_id self parent_id) = Ok document)
         parent_ids documents.
Proof.
  induction parent_ids as [|parent_id rest (documents & IH & Hall)].
  - exists []. split; [reflexivity|constructor].
  - destruct (get_document_by_id_never_raises self parent_id)
      as [document Hdoc].
    exists (document :: documents). split; [|by constructor].
    cbn [get_documents]. run_step. rewrite Hdoc. run_step. rewrite IH.
    reflexivity.
Qed.

Lemma create_context_loop_none documents :
  None ∈ documents ->
  forall context sources_list,
    exists e, create_context_loop documents context sources_list = Raise e.
Proof.
  induction documents as [|doc rest IH]; intros Hin context sources_list.
  - by apply elem_of_nil in Hin.
  - cbn [create_context_loop].
    destruct doc as [doc|]; [|by exists AttributeError].
    apply elem_of_cons in Hin as [?|Hin]; [discriminate|].
    destruct (metadata_item (Some doc) "number"); [|eauto].
    destruct (metadata_item (Some doc) "page"); [|eauto].
    by apply IH.
Qed.

Lemma create_context_none documents :
  None ∈ documents -> exists e, _create_context documents = Raise e.
Proof.
  intros Hin. unfold _create_context.
  destruct (create_context_loop_none documents Hin EmptyString []) as [e ->].
  by exists e.
Qed.

(** C6: a parent id that the docs collection does not hold gives [None] in
    the list of documents, and the assembly of the context then raises:
    [get_context] returns no context, shorter or not. *)
Theorem C6_lookup_miss_raises self query n_docs hits parent_id :
  outcome (_find_relevant_chunks self query 1000) = Ok hits ->
  parent_id ∈ unique_parent_ids hits n_docs ->
  client_get self "docs" [parent_id] = Ok [] ->
  outcome (_get_document_by_id self parent_id) = Ok None
  /\ exists e, outcome (get_context self query n_docs) = Raise e.
Proof.
  intros Hhits Hin Hmiss.
  pose proof (get_document_by_id_miss _ _ Hmiss) as Hnone.
  split; [exact Hnone|].
  unfold get_context, _retrieve_parent_documents. run_step.
  rewrite Hhits. run_step.
  destruct (get_documents_ok self (unique_parent_ids hits n_docs))
    as (documents & -> & Hall).
  run_step. apply create_context_none.
  apply list_elem_of_lookup in Hin as [j Hj].
  destruct (Forall2_lookup_l _ _ _ _ _ Hall Hj) as (document & Hd & Hdoc).
  rewrite Hnone in Hdoc. injection Hdoc as <-.
  apply list_elem_of_lookup. eauto.
Qed.

Lemma C6_lookup_miss_witness :
  outcome (_get_document_by_id fallback_memory "7") = Ok None
  /\ (exists e, outcome (get_context fallback_memory "hola" 2) = Raise e)
  /\ outcome (get_context fallback_memory "hola" 2) = Raise AttributeError.
Proof.
  destruct (C6_lookup_miss_raises fallback_memory "hola" 2 example_hits "7")
    as [Hnone Hraise].
  - reflexivity.
  - vm_compute. constructor.
  - reflexivity.
  - split; [exact Hnone|]. split; [exact Hraise|reflexivity].
Defined.

(** ** Errors of the store *)

Lemma find_relevant_chunks_search_raises
    self query n_results dense dense_0 sparse extracted e :
  dense_encode_queries self [query] = Ok dense ->
  dense !! 0%nat = Some dense_0 ->
  sparse_encode_queries self [query] = Ok sparse ->
  extract_entities self query = Ok extracted ->
  chunks_hybrid_search self (first_search dense_0 sparse n_results extracted)
  = Raise e ->
  outcome (_find_relevant_chunks self query n_results) = Raise e.
Proof.
  intros Hd Hd0 Hs He Hsearch. destruct extracted as [|ent extracted].
  - rewrite (find_relevant_chunks_without_entities _ _ _ _ _ _ Hd Hd0 Hs He).
    cbn [first_search is_empty] in Hsearch. by rewrite Hsearch.
  - rewrite (find_relevant_chunks_with_entities _ _ _ _ _ _ _ Hd Hd0 Hs He)
      by done.
    cbn [first_search is_empty] in Hsearch. by rewrite Hsearch.
Qed.

(** C7, as the code has it: an exception of the hybrid search comes out of
    [get_context] as it is, and no context is returned; an exception of a
    batch comes out of [_process_and_insert_chunks] and of [add_documents],
    as do those of the steps of [add_documents] before the batches. *)
Theorem C7_store_errors_propagate :
  (forall self query n_docs dense dense_0 sparse extracted e,
     dense_encode_queries self [query] = Ok dense ->
     dense !! 0%nat = Some dense_0 ->
     sparse_encode_queries self [query] = Ok sparse ->
     extract_entities self query = Ok extracted ->
     chunks_hybrid_search self (first_search dense_0 sparse 1000 extracted)
     = Raise e ->
     outcome (get_context self query n_docs) = Raise e)
  /\ (forall self documents batch_size start_from (i : nat) e,
        batch_size <> 0 ->
        (i < Z.to_nat (num_batches documents batch_size start_from))%nat ->
        (forall j, (j < i)%nat ->
           outcome (run_batch self documents batch_size start_from j) = Ok tt) ->
        outcome (run_batch self documents batch_size start_from i) = Raise e ->
        outcome (_process_and_insert_chunks self documents batch_size start_from)
        = Raise e)
  /\ (forall py_int_of_str self files type e,
        generate_documents self files type = Raise e ->
        outcome (add_documents py_int_of_str self files type) = Raise e)
  /\ (forall py_int_of_str self files type documents doc_records e,
        generate_documents self files type = Ok documents ->
        _generate_doc_records py_int_of_str self documents = Ok doc_records ->
        client_insert_docs self doc_records = Raise e ->
        outcome (add_documents py_int_of_str self files type) = Raise e)
  /\ (forall py_int_of_str self files type documents doc_records e,
        generate_documents self files type = Ok documents ->
        _generate_doc_records py_int_of_str self documents = Ok doc_records ->
        client_insert_docs self doc_records = Ok tt ->
        outcome (_process_and_insert_chunks self documents 10 0) = Raise e ->
        outcome (add_documents py_int_of_str self files type) = Raise e).
Proof.
  split; [|split; [|split; [|split]]].
  - intros self query n_docs dense dense_0 sparse extracted e Hd Hd0 Hs He Hsearch.
    unfold get_context. run_step.
    by rewrite (find_relevant_chunks_search_raises
                  _ _ _ _ _ _ _ _ Hd Hd0 Hs He Hsearch).
  - intros self documents batch_size start_from i e Hbs Hi Hdone Hfail.
    by rewrite (process_and_insert_chunks_raise
                  _ _ _ _ _ _ Hbs Hi Hdone Hfail).
  - intros py_int_of_str self files type e Hgen.
    unfold add_documents. run_step. by rewrite Hgen.
  - intros py_int_of_str self files type documents doc_records e Hgen Hrec Hins.
    unfold add_documents. run_step. rewrite Hgen. run_step. rewrite Hrec.
    run_step. by rewrite Hins.
  - intros py_int_of_str self files type documents doc_records e
      Hgen Hrec Hins Hchunks.
    unfold add_documents. run_step. rewrite Hgen. run_step. rewrite Hrec.
    run_step. rewrite Hins. run_step. exact Hchunks.
Qed.

Lemma C7_store_errors_witness :
  outcome (get_context dropped_store_memory "hola" 2)
  = Raise collection_not_found.
Proof.
  apply (proj1 C7_store_errors_propagate
           dropped_store_memory "hola" 2 [[1%Q]] [1%Q] [[0%Q; 1%Q]] []);
    reflexivity.
Defined.

(** C7 as stated fails: after the collections were dropped the search
    raises, and [get_context] raises with it where an empty context was
    expected. *)
Lemma C7_get_context_raises :
  chunks_hybrid_search dropped_store_memory
    (unfiltered_search [1%Q] [[0%Q; 1%Q]] 1000)
  = Raise collection_not_found
  /\ outcome (get_context dropped_store_memory "hola" 2)
     = Raise collection_not_found
  /\ is_ok (outcome (get_context dropped_store_memory "hola" 2)) = false.
Proof. vm_compute. repeat split. Qed.

(** ** A run without failure covers the documents from [start_from] *)

Lemma py_slice_from_drop {A} (l : list A) (a : Z) :
  0 <= a -> py_slice_from l a = drop (Z.to_nat a) l.
Proof.
  intros Ha. unfold py_slice_from, py_slice, py_bound.
  destruct (Z.ltb_spec a 0) as [?|_]; [lia|].
  destruct (Z.ltb_spec (Z.of_nat (length l)) 0) as [?|_]; [lia|].
  rewrite Z.min_id.
  destruct (Z.le_gt_cases a (Z.of_nat (length l))) as [Hle|Hgt].
  - rewrite Z.min_l by lia. apply take_ge. rewrite length_drop. lia.
  - rewrite Z.min_r by lia. rewrite !drop_ge by lia. by destruct (Z.to_nat _).
Qed.

Lemma batch_documents_take documents start_from batch_size (j : nat) :
  0 < batch_size ->
  0 <= start_from ->
  batch_documents documents start_from batch_size j
  = take (Z.to_nat batch_size)
      (drop (Z.to_nat start_from + j * Z.to_nat batch_size) documents).
Proof.
  intros Hbs Hsf.
  unfold batch_documents, batch_start_idx, batch_end_idx, py_slice, py_bound, len.
  set (L := Z.of_nat (length documents)).
  set (a := start_from + Z.of_nat j * batch_size).
  assert (0 <= a) as Ha by (subst a; nia).
  assert (Z.to_nat a = (Z.to_nat start_from + j * Z.to_nat batch_size)%nat)
    as Hnat by (subst a; nia).
  replace (start_from + (Z.of_nat j + 1) * batch_size) with (a + batch_size)
    by (subst a; lia).
  destruct (Z.ltb_spec a 0) as [?|_]; [lia|].
  destruct (Z.ltb_spec (Z.min (a + batch_size) L) 0) as [?|_]; [lia|].
  rewrite <- Hnat.
  destruct (Z.le_gt_cases L a) as [Hout|Hin].
  - rewrite (Z.min_r a L) by lia.
    rewrite !drop_ge by (subst L; lia). by rewrite !take_nil.
  - rewrite (Z.min_l a L) by lia.
    destruct (Z.le_gt_cases (a + batch_size) L) as [Hfull|Hlast].
    + rewrite !Z.min_l by lia. f_equal. lia.
    + rewrite (Z.min_r (a + batch_size) L), Z.min_id by lia.
      rewrite !take_ge; [reflexivity| |]; rewrite length_drop; subst L; lia.
Qed.

Lemma batches_concat documents start_from batch_size (k : nat) :
  0 < batch_size ->
  0 <= start_from ->
  concat (map (batch_documents documents start_from batch_size) (seq 0 k))
  = take (k * Z.to_nat batch_size) (drop (Z.to_nat start_from) documents).
Proof.
  intros Hbs Hsf. induction k as [|k IH]; [reflexivity|].
  rewrite seq_S, map_app, concat_app, IH. cbn [map concat Nat.add].
  rewrite app_nil_r, batch_documents_take by done.
  rewrite <- (drop_drop documents), take_take_drop. f_equal. lia.
Qed.

Lemma num_batches_enough documents batch_size start_from :
  0 < batch_size ->
  0 <= start_from ->
  (length (drop (Z.to_nat start_from) documents)
   <= Z.to_nat (num_batches documents batch_size start_from)
      * Z.to_nat batch_size)%nat.
Proof.
  intros Hbs Hsf. unfold num_batches, len.
  rewrite py_slice_from_drop by done.
  set (m := Z.of_nat (length (drop (Z.to_nat start_from) documents))).
  pose proof (Z.div_mod m batch_size ltac:(lia)) as Hdiv.
  pose proof (Z.mod_pos_bound m batch_size Hbs) as Hmod.
  assert (0 <= m / batch_size) as Hq by (apply Z.div_pos; subst m; lia).
  destruct (Z.gtb_spec (m mod batch_size) 0); subst m; nia.
Qed.

(** With a positive batch size and a start within the list, a run in which no
    batch raises returns, logs no offset, and hands the chunker batches of at
    most [batch_size] documents that make up, in order, the documents from
    [start_from] on. *)
Theorem process_and_insert_chunks_covers
    self documents batch_size start_from :
  0 < batch_size ->
  0 <= start_from ->
  (forall j,
     (j < Z.to_nat (num_batches documents batch_size start_from))%nat ->
     outcome (run_batch self documents batch_size start_from j) = Ok tt) ->
  let run := _process_and_insert_chunks self documents batch_size start_from in
  outcome run = Ok tt
  /\ logged_offsets (trace run) = []
  /\ concat (chunked_batches (trace run)) = drop (Z.to_nat start_from) documents
  /\ Forall (fun batch => (length batch <= Z.to_nat batch_size)%nat)
            (chunked_batches (trace run)).
Proof.
  intros Hbs Hsf Hok run. subst run. unfold _process_and_insert_chunks.
  destruct (Z.eqb_spec batch_size 0) as [?|_]; [lia|].
  rewrite process_batches_ok
    by (apply Forall_forall; intros j Hj; apply Hok;
        apply list_elem_of_In, in_seq in Hj; lia).
  rewrite trace_pair, logged_offsets_runs, chunked_batches_runs.
  split; [reflexivity|]. split; [reflexivity|]. split.
  - rewrite batches_concat by done. apply take_ge.
    by apply num_batches_enough.
  - apply Forall_forall. intros batch Hin.
    apply list_elem_of_fmap in Hin as (j & -> & _).
    rewrite batch_documents_take by done. rewrite length_take. lia.
Qed.

Lemma process_and_insert_chunks_covers_example :
  outcome (_process_and_insert_chunks example_memory example_corpus 10 40)
  = Ok tt
  /\ logged_offsets
       (trace (_process_and_insert_chunks example_memory example_corpus 10 40))
     = []
  /\ concat
       (chunked_batches
          (trace (_process_and_insert_chunks example_memory example_corpus 10 40)))
     = drop (Z.to_nat 40) example_corpus
  /\ Forall (fun batch => (length batch <= Z.to_nat 10)%nat)
            (chunked_batches
               (trace (_process_and_insert_chunks
                         example_memory example_corpus 10 40))).
Proof.
  apply (process_and_insert_chunks_covers example_memory example_corpus 10 40);
    [lia|lia|].
  intros j Hj. destruct j as [|j]; [reflexivity|].
  vm_compute in Hj. lia.
Defined.

(** ** The documents of a query *)

(** For a positive [n_docs], [_retrieve_parent_documents] never raises and
    returns one entry, a document or [None], for each of the first [n_docs]
    distinct parent ids of the hits, in their order: at most [n_docs]
    entries. *)
Theorem retrieve_parent_documents_bound self response n_docs :
  1 <= n_docs ->
  exists documents,
    outcome (_retrieve_parent_documents self response n_docs) = Ok documents
    /\ len documents <= n_docs
    /\ Forall2
         (fun parent_id document =>
            outcome (_get_document_by_id self parent_id) = Ok document)
         (take (Z.to_nat n_docs)
            (first_occurrences (map Hit.parent_id response)))
         documents.
Proof.
  intros Hk. unfold _retrieve_parent_documents.
  destruct (get_documents_ok self (unique_parent_ids response n_docs))
    as (documents & Hout & Hall).
  pose proof (unique_parent_ids_take response n_docs Hk) as Heq.
  exists documents. split; [exact Hout|]. split.
  - unfold len. rewrite <- (Forall2_length _ _ _ Hall), Heq, length_take. lia.
  - by rewrite <- Heq.
Qed.

Lemma retrieve_parent_documents_bound_example :
  exists documents,
    outcome (_retrieve_parent_documents example_memory example_hits 1)
    = Ok documents
    /\ len documents <= 1
    /\ Forall2
         (fun parent_id document =>
            outcome (_get_document_by_id example_memory parent_id) = Ok document)
         (take (Z.to_nat 1)
            (first_occurrences (map Hit.parent_id example_hits)))
         documents.
Proof. apply retrieve_parent_documents_bound. lia. Defined.

(** ** Document records *)

Lemma generate_doc_records_inv py_int_of_str self documents :
  forall records,
    _generate_doc_records py_int_of_str self documents = Ok records ->
    Forall2 (fun doc r => doc_record py_int_of_str self doc = Ok r)
            documents records.
Proof.
  induction documents as [|doc rest IH]; intros records H; simpl in H.
  - injection H as <-. constructor.
  - destruct (doc_record py_int_of_str self doc) as [r|] eqn:Hr; [|discriminate].
    destruct (_generate_doc_records py_int_of_str self rest) as [rs|];
      [|discriminate].
    injection H as <-. constructor; [exact Hr|by apply IH].
Qed.

Lemma doc_record_fields py_int_of_str self doc r :
  doc_record py_int_of_str self doc = Ok r ->
  DocRecord.id r = Document.id doc
  /\ DocRecord.page r = default (PyInt 0) (Document.metadata doc !! "page")
  /\ DocRecord.date r = default (PyStr "") (Document.metadata doc !! "date")
  /\ DocRecord.type r = default (PyStr "") (Document.metadata doc !! "type")
  /\ DocRecord.text r
     = py_str_prefix (Document.text doc) (config_doc_size self)
  /\ DocRecord.docs_vector r = [0%Q; 0%Q]
  /\ match Document.metadata doc !! "number" with
     | None | Some PyNone => DocRecord.number r = 0
     | Some (PyInt z) => DocRecord.number r = z
     | Some (PyStr s) => py_int_of_str s = Ok (DocRecord.number r)
     end.
Proof.
  unfold doc_record. intros H.
  destruct (Document.metadata doc !! "number") as [[s|z|]|] eqn:Hn;
    cbn [py_int] in H.
  - destruct (py_int_of_str s) as [z|] eqn:Hs; [|discriminate].
    injection H as <-. by repeat split.
  - injection H as <-. by repeat split.
  - injection H as <-. by repeat split.
  - injection H as <-. by repeat split.
Qed.

(** [_generate_doc_records], when it returns, gives one record per document,
    in the order of the documents and under their ids, with the defaults of
    the missing metadata: page 0, empty date and type, and number 0 when the
    number is missing or [None]; the text is cut at [doc_size]. *)
Theorem generate_doc_records_shape py_int_of_str self documents records :
  _generate_doc_records py_int_of_str self documents = Ok records ->
  length records = length documents
  /\ map DocRecord.id records = map Document.id documents
  /\ forall j doc,
       documents !! j = Some doc ->
       exists r,
         records !! j = Some r
         /\ DocRecord.page r = default (PyInt 0) (Document.metadata doc !! "page")
         /\ DocRecord.date r = default (PyStr "") (Document.metadata doc !! "date")
         /\ DocRecord.type r = default (PyStr "") (Document.metadata doc !! "type")
         /\ DocRecord.text r
            = py_str_prefix (Document.text doc) (config_doc_size self)
         /\ match Document.metadata doc !! "number" with
            | None | Some PyNone => DocRecord.number r = 0
            | Some (PyInt z) => DocRecord.number r = z
            | Some (PyStr s) => py_int_of_str s = Ok (DocRecord.number r)
            end.
Proof.
  intros H. apply generate_doc_records_inv in H.
  split; [symmetry; by eapply Forall2_length|]. split.
  - induction H as [|doc r documents records Hr _ IH]; [reflexivity|].
    cbn [map]. f_equal; [|exact IH].
    by destruct (doc_record_fields _ _ _ _ Hr) as [-> _].
  - intros j doc Hj.
    destruct (Forall2_lookup_l _ _ _ _ _ H Hj) as (r & Hr & Hrec).
    exists r. split; [exact Hr|].
    destruct (doc_record_fields _ _ _ _ Hrec) as (_ & ? & ? & ? & ? & _ & ?).
    by repeat split.
Qed.

Lemma generate_doc_records_shape_example :
  length [DocRecord.mk "7" (PyInt 0) (PyStr "") (PyStr "") 0 "decreto 7"
            [0%Q; 0%Q];
          DocRecord.mk "8" (PyInt 0) (PyStr "") (PyStr "") 0 "otro texto"
            [0%Q; 0%Q]]
  = length example_documents
  /\ map DocRecord.id
       [DocRecord.mk "7" (PyInt 0) (PyStr "") (PyStr "") 0 "decreto 7"
          [0%Q; 0%Q];
        DocRecord.mk "8" (PyInt 0) (PyStr "") (PyStr "") 0 "otro texto"
          [0%Q; 0%Q]]
     = map Document.id example_documents
  /\ forall j doc,
       example_documents !! j = Some doc ->
       exists r,
         [DocRecord.mk "7" (PyInt 0) (PyStr "") (PyStr "") 0 "decreto 7"
            [0%Q; 0%Q];
          DocRecord.mk "8" (PyInt 0) (PyStr "") (PyStr "") 0 "otro texto"
            [0%Q; 0%Q]] !! j = Some r
         /\ DocRecord.page r = default (PyInt 0) (Document.metadata doc !! "page")
         /\ DocRecord.date r = default (PyStr "") (Document.metadata doc !! "date")
         /\ DocRecord.type r = default (PyStr "") (Document.metadata doc !! "type")
         /\ DocRecord.text r
            = py_str_prefix (Document.text doc) (config_doc_size example_memory)
         /\ match Document.metadata doc !! "number" with
            | None | Some PyNone => DocRecord.number r = 0
            | Some (PyInt z) => DocRecord.number r = z
            | Some (PyStr s) =>
                (fun _ : string => Raise ValueError) s = Ok (DocRecord.number r)
            end.
Proof.
  apply (generate_doc_records_shape
           (fun _ => Raise ValueError) example_memory example_documents).
  vm_compute. reflexivity.
Defined.

(** [_generate_doc_records] raises only through [int()] on a number given as
    a string: documents whose number is missing, [None] or an integer always
    get their records. *)
Theorem generate_doc_records_returns py_int_of_str self documents :
  Forall (fun doc =>
            forall s, Document.metadata doc !! "number" <> Some (PyStr s))
         documents ->
  exists records,
    _generate_doc_records py_int_of_str self documents = Ok records.
Proof.
  induction 1 as [|doc rest Hdoc _ [records IH]]; [by exists []|].
  cbn [_generate_doc_records]. rewrite IH.
  unfold doc_record.
  destruct (Document.metadata doc !! "number") as [[s|z|]|] eqn:Hn;
    cbn [py_int]; eauto.
  by destruct (Hdoc s).
Qed.

Lemma generate_doc_records_returns_example :
  exists records,
    _generate_doc_records (fun _ => Raise ValueError)
      example_memory example_documents
    = Ok records.
Proof.
  apply generate_doc_records_returns.
  repeat constructor; intros s; vm_compute; discriminate.
Defined.

(** ** Texts cut to size *)

Lemma append_assoc (s1 s2 s3 : string) :
  (s1 +:+ s2) +:+ s3 = s1 +:+ (s2 +:+ s3).
Proof.
  induction s1 as [|c s1 IH]; [reflexivity|].
  change (String c ((s1 +:+ s2) +:+ s3) = String c (s1 +:+ (s2 +:+ s3))).
  by rewrite IH.
Qed.

Lemma append_empty_r (s : string) : s +:+ EmptyString = s.
Proof.
  induction s as [|c s IH]; [reflexivity|].
  change (String c (s +:+ EmptyString) = String c s). by rewrite IH.
Qed.

Lemma py_chars_head (s ch : string) (chars : list string) :
  py_chars s = ch :: chars -> continues ch = continues s.
Proof.
  destruct s as [|c rest]; [discriminate|]. cbn [py_chars continues].
  destruct (py_chars rest) as [|ch' chars']; [|destruct (continues rest)];
    intros [= <- _]; reflexivity.
Qed.

Lemma py_chars_wf (s : string) : chars_wf (py_chars s).
Proof.
  induction s as [|c rest [IHchar IHlead]]; [by split; constructor|].
  cbn [py_chars].
  destruct (py_chars rest) as [|ch chars] eqn:Hrest.
  { split; repeat constructor. }
  pose proof (py_chars_head _ _ _ Hrest) as Hhead.
  apply Forall_cons in IHchar as [Hch Hchars]. cbn [tail] in IHlead.
  destruct (continues rest) eqn:Hcont.
  - split; [|exact IHlead]. constructor; [|exact Hchars].
    destruct ch as [|c' t]; [contradiction|].
    cbn [is_char all_continuation] in *. cbn [continues] in Hhead.
    by rewrite Hhead, Hch.
  - split; [by repeat constructor|]. cbn [tail]. by constructor.
Qed.

Lemma join_chars_app (l1 l2 : list string) :
  join_chars (l1 ++ l2) = join_chars l1 +:+ join_chars l2.
Proof.
  induction l1 as [|ch l1 IH]; [reflexivity|].
  cbn [app join_chars fold_right]. fold (join_chars (l1 ++ l2)).
  fold (join_chars l1). by rewrite IH, append_assoc.
Qed.

(** The characters of a string, put together again, are the string. *)
Lemma join_py_chars (s : string) : join_chars (py_chars s) = s.
Proof.
  induction s as [|c rest IH]; [reflexivity|]. cbn [py_chars].
  destruct (py_chars rest) as [|ch chars]; [by rewrite <- IH|].
  destruct (continues rest); by rewrite <- IH.
Qed.

Lemma py_chars_char (c : ascii) (t u : string) :
  all_continuation t = true ->
  continues u = false ->
  py_chars (String c (t +:+ u)) = String c t :: py_chars u.
Proof.
  revert c. induction t as [|c1 t IH]; intros c Ht Hu.
  - change (EmptyString +:+ u) with u. cbn [py_chars].
    destruct (py_chars u); [reflexivity|by rewrite Hu].
  - cbn [all_continuation] in Ht. apply andb_prop in Ht as [Hc1 Ht].
    change (String c1 t +:+ u) with (String c1 (t +:+ u)).
    change (py_chars (String c (String c1 (t +:+ u))))
      with (match py_chars (String c1 (t +:+ u)) with
            | ch :: chars =>
                if continues (String c1 (t +:+ u)) then String c ch :: chars
                else String c EmptyString :: ch :: chars
            | [] => [String c EmptyString]
            end).
    rewrite IH by done. cbn [continues]. by rewrite Hc1.
Qed.

Lemma py_chars_join (chars : list string) :
  chars_wf chars -> py_chars (join_chars chars) = chars.
Proof.
  induction chars as [|ch chars IH]; intros [Hchar Hlead]; [reflexivity|].
  apply Forall_cons in Hchar as [Hch Hchars]. cbn [tail] in Hlead.
  destruct ch as [|c t]; [contradiction|]. cbn [is_char] in Hch.
  cbn [join_chars fold_right]. fold (join_chars chars).
  change (String c t +:+ join_chars chars)
    with (String c (t +:+ join_chars chars)).
  rewrite py_chars_char; [| exact Hch |].
  - f_equal. apply IH. split; [exact Hchars|].
    destruct chars; [constructor|]. cbn [tail].
    by apply Forall_cons in Hlead as [_ ?].
  - destruct chars as [|ch' chars']; [reflexivity|].
    apply Forall_cons in Hlead as [Hlead _].
    apply Forall_cons in Hchars as [Hch' _].
    destruct ch' as [|c' t']; [contradiction|]. exact Hlead.
Qed.

Lemma chars_wf_take (k : nat) (chars : list string) :
  chars_wf chars -> chars_wf (take k chars).
Proof.
  intros [Hchar Hlead]. split; [by apply Forall_take|].
  destruct k as [|k]; [constructor|].
  destruct chars as [|ch chars]; [constructor|]. cbn [take tail] in *.
  by apply Forall_take.
Qed.

Lemma py_str_prefix_take (s : string) (n : Z) :
  0 <= n ->
  py_str_prefix s n = join_chars (take (Z.to_nat n) (py_chars s)).
Proof.
  intros Hn. unfold py_str_prefix, py_slice, py_bound.
  destruct (Z.ltb_spec 0 0) as [?|_]; [lia|].
  destruct (Z.ltb_spec n 0) as [?|_]; [lia|].
  set (l := py_chars s).
  rewrite (Z.min_l 0) by lia. rewrite Z2Nat.inj_0, drop_0, Z.sub_0_r.
  destruct (Z.le_gt_cases n (Z.of_nat (length l))) as [Hle|Hgt].
  - by rewrite Z.min_l by lia.
  - rewrite Z.min_r by lia. rewrite Nat2Z.id. by rewrite !take_ge by lia.
Qed.

(** A text cut at a size that is not negative holds the first characters of
    the text, at most that many: it is a prefix of the text, and the text
    itself when it fits. *)
Lemma py_str_prefix_bound (s : string) (n : Z) :
  0 <= n ->
  py_chars (py_str_prefix s n) = take (Z.to_nat n) (py_chars s)
  /\ py_str_len (py_str_prefix s n) <= n
  /\ (exists rest, s = py_str_prefix s n +:+ rest)
  /\ (py_str_len s <= n -> py_str_prefix s n = s).
Proof.
  intros Hn. rewrite py_str_prefix_take by done.
  assert (py_chars (join_chars (take (Z.to_nat n) (py_chars s)))
          = take (Z.to_nat n) (py_chars s)) as Hchars
    by apply py_chars_join, chars_wf_take, py_chars_wf.
  split; [exact Hchars|]. split; [|split].
  - unfold py_str_len. rewrite Hchars, length_take. lia.
  - exists (join_chars (drop (Z.to_nat n) (py_chars s))).
    by rewrite <- join_chars_app, take_drop, join_py_chars.
  - unfold py_str_len. intros Hfit.
    rewrite take_ge by lia. apply join_py_chars.
Qed.

(** With a chunk size that is not negative, the text of every record
    [_generate_chunk_records] returns holds the first [chunk_size]
    characters of the text of its chunk: it is a prefix of that text, of at
    most [chunk_size] characters, and the whole text when it fits; the
    providers and the tagger were given the whole text. *)
Theorem chunk_record_text_cut self chunks records :
  0 <= config_chunk_size self ->
  outcome (_generate_chunk_records self chunks) = Ok records ->
  forall j r,
    records !! j = Some r ->
    exists chunk,
      chunks !! j = Some chunk
      /\ py_chars (ChunkRecord.text r)
         = take (Z.to_nat (config_chunk_size self))
             (py_chars (Document.text chunk))
      /\ py_str_len (ChunkRecord.text r) <= config_chunk_size self
      /\ (exists rest, Document.text chunk = ChunkRecord.text r +:+ rest)
      /\ (py_str_len (Document.text chunk) <= config_chunk_size self ->
          ChunkRecord.text r = Document.text chunk).
Proof.
  intros Hsize H j r Hr.
  apply generate_chunk_records_ok in H as (dense & sparse & _ & _ & Hlen & Hrec).
  destruct (chunks !! j) as [chunk|] eqn:Hc.
  2:{ apply lookup_ge_None in Hc. apply lookup_lt_Some in Hr. lia. }
  destruct (Hrec j chunk Hc) as (r' & Hr' & tagged & _ & _ & _ & _ & _ & Htext & _).
  assert (r' = r) as -> by congruence.
  exists chunk. split; [reflexivity|]. rewrite Htext.
  apply py_str_prefix_bound, Hsize.
Qed.

Lemma chunk_record_text_cut_example :
  exists chunk,
    example_chunks !! 0%nat = Some chunk
    /\ py_chars (ChunkRecord.text example_record_0)
       = take (Z.to_nat (config_chunk_size example_memory))
           (py_chars (Document.text chunk))
    /\ py_str_len (ChunkRecord.text example_record_0)
       <= config_chunk_size example_memory
    /\ (exists rest,
          Document.text chunk = ChunkRecord.text example_record_0 +:+ rest)
    /\ (py_str_len (Document.text chunk) <= config_chunk_size example_memory ->
        ChunkRecord.text example_record_0 = Document.text chunk).
Proof.
  apply (chunk_record_text_cut example_memory example_chunks example_records).
  - vm_compute. discriminate.
  - vm_compute. reflexivity.
  - reflexivity.
Defined.

(** The cut counts characters, not bytes: a character of two bytes is kept
    whole and counts once. *)
Example py_str_prefix_characters :
  py_str_prefix "año nuevo" 2 = "añ"
  /\ py_str_prefix "año nuevo" 9 = "año nuevo"
  /\ py_str_len "año nuevo" = 9
  /\ String.length "año nuevo" = 10%nat.
Proof. repeat split; reflexivity. Qed.

(** A negative size cuts from the end, as a Python slice does: the record
    text loses the last characters of the chunk text. *)
Example py_str_prefix_negative :
  py_str_prefix "decreto" (-2) = "decre" /\ py_str_prefix "ab" (-5) = "".
Proof. split; reflexivity. Qed.

(** ** The calls of the record builder *)

Lemma chunk_records_loop_tagged self dense sparse chunks :
  forall i records out,
    outcome (chunk_records_loop self dense sparse i chunks records) = Ok out ->
    trace (chunk_records_loop self dense sparse i chunks records)
    = map EvExtractEntities (map Document.text chunks).
Proof.
  induction chunks as [|chunk rest IH]; intros i records out H.
  - reflexivity.
  - cbn [chunk_records_loop] in *. run_step_in H. run_step.
    destruct (extract_entities self (Document.text chunk)); [|discriminate].
    run_step_in H. run_step.
    destruct (py_index dense i); [|discriminate].
    run_step_in H. run_step.
    destruct (py_index sparse i); [|discriminate].
    cbv beta iota in *. cbn [map app]. f_equal. by eapply IH.
Qed.

(** A run of [_generate_chunk_records] that returns made these calls and no
    other: the dense provider on all the texts, the sparse provider on all
    the texts, then the tagger on the text of each chunk, one chunk after the
    other. *)
Theorem generate_chunk_records_calls self chunks records :
  outcome (_generate_chunk_records self chunks) = Ok records ->
  trace (_generate_chunk_records self chunks)
  = EvDenseEncodeDocuments (map Document.text chunks)
    :: EvSparseEncodeDocuments (map Document.text chunks)
    :: map EvExtractEntities (map Document.text chunks).
Proof.
  unfold _generate_chunk_records. intros H. run_step_in H. run_step.
  destruct (dense_encode_documents self _); [|discriminate].
  run_step_in H. run_step.
  destruct (sparse_encode_documents self _); [|discriminate].
  cbv beta iota in *. cbn [app]. do 2 f_equal.
  by eapply chunk_records_loop_tagged.
Qed.

Lemma generate_chunk_records_calls_example :
  trace (_generate_chunk_records example_memory example_chunks)
  = EvDenseEncodeDocuments (map Document.text example_chunks)
    :: EvSparseEncodeDocuments (map Document.text example_chunks)
    :: map EvExtractEntities (map Document.text example_chunks).
Proof.
  apply (generate_chunk_records_calls example_memory example_chunks
           example_records).
  vm_compute. reflexivity.
Defined.

Lemma chunk_records_loop_short self dense sparse chunks :
  Forall (fun chunk => is_ok (extract_entities self (Document.text chunk)) = true)
         chunks ->
  forall i records,
    (i <= length dense)%nat ->
    (i <= length sparse)%nat ->
    (length dense < i + length chunks
     \/ length sparse < i + length chunks)%nat ->
    outcome (chunk_records_loop self dense sparse i chunks records)
    = Raise IndexError.
Proof.
  induction 1 as [|chunk rest Htag _ IH]; intros i records Hid His Hshort.
  - simpl in Hshort. lia.
  - cbn [chunk_records_loop]. run_step.
    destruct (extract_entities self (Document.text chunk)); [|discriminate].
    run_step. unfold py_index at 1.
    destruct (dense !! i) as [dv|] eqn:Hd; [|reflexivity].
    run_step. unfold py_index at 1.
    destruct (sparse !! i) as [sv|] eqn:Hs; [|reflexivity].
    cbv beta iota. apply lookup_lt_Some in Hd, Hs.
    apply IH; [lia|lia|]. cbn [length] in Hshort. lia.
Qed.

(** When a provider returns fewer vectors than there are chunks, and the
    tagger raises on none of them, [_generate_chunk_records] raises
    [IndexError]: the records built for the first chunks are not returned. *)
Theorem generate_chunk_records_short_embeddings self chunks dense sparse :
  dense_encode_documents self (map Document.text chunks) = Ok dense ->
  sparse_encode_documents self (map Document.text chunks) = Ok sparse ->
  Forall (fun chunk => is_ok (extract_entities self (Document.text chunk)) = true)
         chunks ->
  (length dense < length chunks \/ length sparse < length chunks)%nat ->
  outcome (_generate_chunk_records self chunks) = Raise IndexError.
Proof.
  intros Hd Hs Htag Hshort. unfold _generate_chunk_records.
  run_step. rewrite Hd. run_step. rewrite Hs. cbv beta iota.
  apply chunk_records_loop_short; [exact Htag|lia|lia|].
  rewrite length_map. exact Hshort.
Qed.

(** ** What a batch inserts *)

Lemma insert_calls_app (t1 t2 : list event) :
  insert_calls (t1 ++ t2) = insert_calls t1 ++ insert_calls t2.
Proof. unfold insert_calls. apply omap_app. Qed.

Lemma insert_calls_of_record_calls (t : list event) :
  Forall (fun ev => is_record_call ev = true) t -> insert_calls t = [].
Proof.
  induction 1 as [|ev t Hev _ IH]; [reflexivity|].
  cbn. fold (insert_calls t). rewrite IH. by destruct ev.
Qed.

(** A batch calls [insert] at most once, with all the records of the batch,
    and only after the chunker, the providers and the tagger went through;
    when one of them raises the exception comes out and nothing was
    inserted.  A batch without chunk still inserts, an empty list. *)
Theorem batch_inserts_all_or_nothing self batch :
  let run := _process_and_insert_chunk_batch self batch in
  insert_calls (trace run)
  = match _chunk_documents self batch with
    | Ok chunks =>
        match outcome (_generate_chunk_records self chunks) with
        | Ok records => [records]
        | Raise _ => []
        end
    | Raise _ => []
    end
  /\ (forall e,
        _chunk_documents self batch = Raise e ->
        outcome run = Raise e /\ insert_calls (trace run) = [])
  /\ (forall chunks e,
        _chunk_documents self batch = Ok chunks ->
        outcome (_generate_chunk_records self chunks) = Raise e ->
        outcome run = Raise e /\ insert_calls (trace run) = [])
  /\ (forall chunks records,
        _chunk_documents self batch = Ok chunks ->
        outcome (_generate_chunk_records self chunks) = Ok records ->
        outcome run = chunks_insert self records
        /\ insert_calls (trace run) = [records]).
Proof.
  intros run.
  assert (insert_calls (trace run)
          = match _chunk_documents self batch with
            | Ok chunks =>
                match outcome (_generate_chunk_records self chunks) with
                | Ok records => [records]
                | Raise _ => []
                end
            | Raise _ => []
            end) as Hcalls.
  { subst run. unfold _process_and_insert_chunk_batch. run_step.
    destruct (_chunk_documents self batch) as [chunks|]; [|reflexivity].
    run_step. rewrite !insert_calls_app.
    rewrite (insert_calls_of_record_calls _ (generate_chunk_records_trace _ _)).
    destruct (outcome (_generate_chunk_records self chunks)); reflexivity. }
  split; [exact Hcalls|]. rewrite Hcalls. subst run.
  unfold _process_and_insert_chunk_batch. split; [|split].
  - intros e He. run_step. by rewrite He.
  - intros chunks e Hc He. run_step. rewrite Hc. run_step. by rewrite He.
  - intros chunks records Hc Hr. run_step. rewrite Hc. run_step. rewrite Hr.
    by split.
Qed.

(** ** Degenerate batch arguments *)

(** A batch size of 0 raises [ZeroDivisionError] before anything is done; a
    negative batch size, or a start at or after the end of the documents with
    a positive batch size, returns at once without a single call: no
    document is processed and nothing is logged. *)
Theorem process_and_insert_chunks_degenerate self documents :
  (forall start_from,
     _process_and_insert_chunks self documents 0 start_from
     = (Raise ZeroDivisionError, []))
  /\ (forall batch_size start_from,
        batch_size < 0 ->
        _process_and_insert_chunks self documents batch_size start_from
        = (Ok tt, []))
  /\ (forall batch_size start_from,
        0 < batch_size ->
        len documents <= start_from ->
        _process_and_insert_chunks self documents batch_size start_from
        = (Ok tt, [])).
Proof.
  split; [reflexivity|]. split.
  - intros batch_size start_from Hneg. unfold _process_and_insert_chunks.
    destruct (Z.eqb_spec batch_size 0) as [?|_]; [lia|].
    assert (num_batches documents batch_size start_from <= 0) as Hnum.
    { unfold num_batches, len.
      set (m := Z.of_nat (length (py_slice_from documents start_from))).
      assert (0 <= m) as Hm by (subst m; lia).
      pose proof (Z.mod_neg_bound m batch_size Hneg) as Hmod.
      assert (m / batch_size <= 0) as Hdiv.
      { pose proof (Z.div_mod m batch_size ltac:(lia)). nia. }
      destruct (Z.gtb_spec (m mod batch_size) 0); lia. }
    replace (Z.to_nat (num_batches documents batch_size start_from)) with 0%nat
      by lia.
    reflexivity.
  - intros batch_size start_from Hbs Hstart. unfold _process_and_insert_chunks.
    destruct (Z.eqb_spec batch_size 0) as [?|_]; [lia|].
    assert (num_batches documents batch_size start_from = 0) as ->.
    { unfold num_batches, len in *.
      rewrite py_slice_from_drop by lia. rewrite drop_ge by lia. reflexivity. }
    reflexivity.
Qed.

(** ** A failed run and the run resumed from the logged offset *)

Lemma process_and_insert_chunks_ok_run self documents batch_size start_from :
  batch_size <> 0 ->
  (forall j,
     (j < Z.to_nat (num_batches documents batch_size start_from))%nat ->
     outcome (run_batch self documents batch_size start_from j) = Ok tt) ->
  _process_and_insert_chunks self documents batch_size start_from
  = (Ok tt,
     flat_map
       (fun j => trace (run_batch self documents batch_size start_from j))
       (seq 0 (Z.to_nat (num_batches documents batch_size start_from)))).
Proof.
  intros Hbs Hok. unfold _process_and_insert_chunks.
  destruct (Z.eqb_spec batch_size 0) as [?|_]; [lia|].
  apply process_batches_ok, Forall_forall. intros j Hj. apply Hok.
  apply list_elem_of_In, in_seq in Hj. lia.
Qed.

(** The offset logged when a batch fails is the index after that batch.  A
    run resumed from it, in a memory that may answer otherwise than the first
    one, starts after the failed batch: the batches handed to the chunker by
    the failed run and by the resumed run are, one after the other, the
    documents from [start_from] on, each document once; the documents of the
    failed batch are not processed a second time. *)
Theorem failed_then_resumed_runs_cover
    self resumed_self documents batch_size start_from (i : nat) e :
  0 < batch_size ->
  0 <= start_from ->
  (i < Z.to_nat (num_batches documents batch_size start_from))%nat ->
  (forall j, (j < i)%nat ->
     outcome (run_batch self documents batch_size start_from j) = Ok tt) ->
  outcome (run_batch self documents batch_size start_from i) = Raise e ->
  let offset := batch_start_idx start_from batch_size i + batch_size in
  (forall j,
     (j < Z.to_nat (num_batches documents batch_size offset))%nat ->
     outcome (run_batch resumed_self documents batch_size offset j) = Ok tt) ->
  let failed := _process_and_insert_chunks self documents batch_size start_from in
  let resumed :=
    _process_and_insert_chunks resumed_self documents batch_size offset in
  logged_offsets (trace failed) = [offset]
  /\ outcome resumed = Ok tt
  /\ last (chunked_batches (trace failed))
     = Some (batch_documents documents start_from batch_size i)
  /\ concat (chunked_batches (trace resumed)) = drop (Z.to_nat offset) documents
  /\ concat (chunked_batches (trace failed))
     ++ concat (chunked_batches (trace resumed))
     = drop (Z.to_nat start_from) documents.
Proof.
  intros Hbs Hsf Hi Hdone Hfail offset Hresumed failed resumed.
  assert (0 <= offset) as Hoff by (subst offset; unfold batch_start_idx; nia).
  assert (Z.to_nat offset
          = (Z.to_nat start_from + S i * Z.to_nat batch_size)%nat) as Hnat
    by (subst offset; unfold batch_start_idx; nia).
  subst failed resumed.
  rewrite (process_and_insert_chunks_raise
             self documents batch_size start_from i e
             ltac:(lia) Hi Hdone Hfail).
  rewrite (process_and_insert_chunks_ok_run
             resumed_self documents batch_size offset ltac:(lia) Hresumed).
  rewrite !trace_pair, logged_offsets_app, chunked_batches_app.
  rewrite logged_offsets_runs, !chunked_batches_runs.
  cbn [logged_offsets chunked_batches omap list_omap app].
  rewrite app_nil_r.
  split; [reflexivity|]. split; [reflexivity|]. split.
  - rewrite seq_S, map_app. cbn [map Nat.add]. apply last_snoc.
  - assert (concat
              (map (batch_documents documents offset batch_size)
                 (seq 0 (Z.to_nat (num_batches documents batch_size offset))))
            = drop (Z.to_nat offset) documents) as Hres.
    { rewrite batches_concat by done. apply take_ge.
      by apply num_batches_enough. }
    rewrite Hres. split; [reflexivity|].
    rewrite batches_concat by done. rewrite Hnat.
    rewrite <- (drop_drop documents). apply take_drop.
Qed.

Lemma failed_then_resumed_runs_cover_example :
  logged_offsets
    (trace (_process_and_insert_chunks failing_memory example_corpus 10 0))
  = [batch_start_idx 0 10 3 + 10]
  /\ outcome
       (_process_and_insert_chunks example_memory example_corpus 10
          (batch_start_idx 0 10 3 + 10))
     = Ok tt
  /\ last (chunked_batches
             (trace (_process_and_insert_chunks
                       failing_memory example_corpus 10 0)))
     = Some (batch_documents example_corpus 0 10 3)
  /\ concat (chunked_batches
               (trace (_process_and_insert_chunks example_memory example_corpus
                         10 (batch_start_idx 0 10 3 + 10))))
     = drop (Z.to_nat (batch_start_idx 0 10 3 + 10)) example_corpus
  /\ concat (chunked_batches
               (trace (_process_and_insert_chunks
                         failing_memory example_corpus 10 0)))
     ++ concat (chunked_batches
                  (trace (_process_and_insert_chunks example_memory
                            example_corpus 10 (batch_start_idx 0 10 3 + 10))))
     = drop (Z.to_nat 0) example_corpus.
Proof.
  apply (failed_then_resumed_runs_cover
           failing_memory example_memory example_corpus 10 0 3
           store_unavailable).
  - lia.
  - lia.
  - vm_compute. lia.
  - intros j Hj. destruct j as [|[|[|j]]]; [vm_compute; reflexivity ..|lia].
  - vm_compute. reflexivity.
  - intros j Hj. destruct j as [|j]; [vm_compute; reflexivity|].
    vm_compute in Hj. lia.
Defined.

Lemma generate_chunk_records_short_embeddings_example :
  outcome (_generate_chunk_records short_dense_memory example_chunks)
  = Raise IndexError.
Proof.
  apply (generate_chunk_records_short_embeddings
           short_dense_memory example_chunks [] [[0%Q; 1%Q]; [0%Q; 1%Q]]).
  - reflexivity.
  - reflexivity.
  - repeat constructor.
  - left. simpl. lia.
Defined.

(** ** The searches of a query, whatever happens *)

Lemma find_relevant_chunks_searches self query n_results :
  searches (trace (_find_relevant_chunks self query n_results)) = []
  \/ exists dense_0 sparse extracted,
       extract_entities self query = Ok extracted
       /\ searches (trace (_find_relevant_chunks self query n_results))
          = [first_search dense_0 sparse n_results extracted].
Proof.
  destruct (dense_encode_queries self [query]) as [dense|] eqn:Hd.
  2:{ left. unfold _find_relevant_chunks. run_step. by rewrite Hd. }
  destruct (dense !! 0%nat) as [dense_0|] eqn:Hd0.
  2:{ left. unfold _find_relevant_chunks. run_step. rewrite Hd.
      run_step. unfold py_index at 1. by rewrite Hd0. }
  destruct (sparse_encode_queries self [query]) as [sparse|] eqn:Hs.
  2:{ left. unfold _find_relevant_chunks. run_step. rewrite Hd.
      run_step. unfold py_index at 1. rewrite Hd0. run_step. by rewrite Hs. }
  destruct (extract_entities self query) as [extracted|] eqn:He.
  2:{ left. unfold _find_relevant_chunks. run_step. rewrite Hd.
      run_step. unfold py_index at 1. rewrite Hd0. run_step. rewrite Hs.
      run_step. by rewrite He. }
  right. exists dense_0, sparse, extracted. split; [reflexivity|].
  destruct extracted as [|ent extracted].
  - by rewrite (find_relevant_chunks_without_entities
                  _ _ _ _ _ _ Hd Hd0 Hs He).
  - by rewrite (find_relevant_chunks_with_entities
                  _ _ _ _ _ _ _ Hd Hd0 Hs He).
Qed.

(** Whatever the collaborators answer, [_find_relevant_chunks] makes at
    most one hybrid search for a query, and that search asks for the dense
    and the sparse field with the limit [n_results] on each request and on
    the whole, fused with the weights 0.1 and 0.9; it carries a filter exactly
    when the tagger found entities, and then also asks for the entities of
    the hits. *)
Theorem find_relevant_chunks_one_search self query n_results :
  (length (searches (trace (_find_relevant_chunks self query n_results)))
   <= 1)%nat
  /\ forall search,
       search ∈ searches (trace (_find_relevant_chunks self query n_results)) ->
       map AnnSearchRequest.anns_field (HybridSearch.reqs search)
       = ["dense_vector"; "sparse_vector"]
       /\ map AnnSearchRequest.limit (HybridSearch.reqs search)
          = [n_results; n_results]
       /\ HybridSearch.limit search = n_results
       /\ HybridSearch.rerank search = (1 # 10, 9 # 10)%Q
       /\ exists extracted,
            extract_entities self query = Ok extracted
            /\ HybridSearch.filter search
               = (if is_empty extracted then None
                  else Some (query_entity_list extracted))
            /\ HybridSearch.output_fields search
               = (if is_empty extracted then ["parent_id"]
                  else ["parent_id"; "entities"]).
Proof.
  destruct (find_relevant_chunks_searches self query n_results)
    as [->|(dense_0 & sparse & extracted & He & ->)].
  - split; [simpl; lia|]. intros search Hin. by apply elem_of_nil in Hin.
  - split; [simpl; lia|]. intros search Hin.
    apply list_elem_of_singleton in Hin as ->.
    do 4 (split; [by destruct extracted|]).
    exists extracted. split; [exact He|]. by destruct extracted.
Qed.

(** ** Quotes in entity values *)

Lemma escape_quotes_without_quote (v : string) :
  has_char double_quote v = false -> escape_quotes v = v.
Proof.
  unfold escape_quotes. induction v as [|c v IH]; [reflexivity|].
  cbn [has_char py_replace_char]. intros H.
  apply orb_false_elim in H as [Hc Hv]. rewrite Hc. f_equal. by apply IH.
Qed.

Lemma append_length (s1 s2 : string) :
  String.length (s1 +:+ s2) = (String.length s1 + String.length s2)%nat.
Proof.
  induction s1 as [|c s1 IH]; [reflexivity|].
  change (S (String.length (s1 +:+ s2))
          = S (String.length s1 + String.length s2)).
  by rewrite IH.
Qed.

Lemma escape_quotes_length (v : string) :
  (String.length v <= String.length (escape_quotes v))%nat
  /\ (has_char double_quote v = true ->
      String.length v < String.length (escape_quotes v))%nat.
Proof.
  unfold escape_quotes. induction v as [|c v [IHle IHlt]].
  - split; [reflexivity|discriminate].
  - cbn [has_char py_replace_char].
    destruct (Ascii.eqb c double_quote) eqn:Hc.
    + rewrite append_length. cbn [String.length Nat.add orb]. split; intros; lia.
    + cbn [String.length orb]. split; [lia|]. intros H. specialize (IHlt H). lia.
Qed.

(** The entity list of a query is the list of dictionaries the ingestion
    stores when no value holds a double quote, and then a hit that stores one
    of the entities of the query passes the check on the client side.  An
    entity whose value holds a double quote is escaped in the query and not in
    the store: a hit that stores just that entity does not pass the check. *)
Theorem quoted_entity_fails_client_check :
  (forall extracted,
     Forall (fun ent => has_char double_quote (snd ent) = false) extracted ->
     query_entity_list extracted = entity_dicts extracted)
  /\ (forall extracted hit ent,
        Forall (fun ent => has_char double_quote (snd ent) = false) extracted ->
        ent ∈ entity_dicts extracted ->
        ent ∈ Hit.entities hit ->
        hit_matches (query_entity_list extracted) hit = true)
  /\ (forall entity_type entity_value id parent_id,
        has_char double_quote entity_value = true ->
        hit_matches
          (query_entity_list [(entity_type, entity_value)])
          (Hit.mk id parent_id (entity_dicts [(entity_type, entity_value)]))
        = false).
Proof.
  assert (forall extracted,
            Forall (fun ent => has_char double_quote (snd ent) = false)
                   extracted ->
            query_entity_list extracted = entity_dicts extracted) as Hsame.
  { induction 1 as [|ent extracted Hent _ IH]; [reflexivity|].
    unfold query_entity_list, entity_dicts in *. cbn [map].
    by rewrite IH, escape_quotes_without_quote. }
  split; [exact Hsame|]. split.
  - intros extracted hit ent Hq Hin Hhit. rewrite (Hsame _ Hq).
    apply hit_matches_elem. eauto.
  - intros entity_type entity_value id parent_id Hq.
    unfold hit_matches, query_entity_list, entity_dicts.
    cbn [map existsb fst snd Hit.entities]. rewrite orb_false_r.
    apply bool_decide_eq_false. rewrite list_elem_of_singleton.
    intros Heq. injection Heq as Heq.
    pose proof (proj2 (escape_quotes_length entity_value) Hq) as Hlt.
    rewrite Heq in Hlt. lia.
Qed.

(** ** Looking a document up *)

(** A row of the docs collection that has an id gives a document: its text
    is the text of the row, empty when the row has none, and its metadata are
    the other fields of the row, without the vector. *)
Theorem get_document_by_id_found self data_id fields rest id :
  client_get self "docs" [data_id] = Ok (fields :: rest) ->
  fields !! "id" = Some id ->
  exists doc,
    _get_document_by_id self data_id
    = (Ok (Some doc), [EvClientGet "docs" [data_id]])
    /\ Document.id doc = py_str id
    /\ Document.text doc = py_str (default (PyStr "") (fields !! "text"))
    /\ Document.metadata doc !! "id" = None
    /\ Document.metadata doc !! "text" = None
    /\ Document.metadata doc !! "docs_vector" = None
    /\ forall key,
         key <> "id" -> key <> "text" -> key <> "docs_vector" ->
         Document.metadata doc !! key = fields !! key.
Proof.
  intros Hget Hid. eexists. split.
  - rewrite (run_eq (_get_document_by_id self data_id)).
    unfold _get_document_by_id. run_step. rewrite Hget. cbv beta iota.
    rewrite Hid. reflexivity.
  - cbn [Document.id Document.text Document.metadata].
    split; [reflexivity|]. split; [reflexivity|].
    split; [by simplify_map_eq|]. split; [by simplify_map_eq|].
    split; [by simplify_map_eq|].
    intros key H1 H2 H3. by simplify_map_eq.
Qed.

Lemma get_document_by_id_found_example :
  exists doc,
    _get_document_by_id found_memory "7"
    = (Ok (Some doc), [EvClientGet "docs" ["7"]])
    /\ Document.id doc = py_str (PyStr "7")
    /\ Document.text doc
       = py_str (default (PyStr "") (example_row "7" !! "text"))
    /\ Document.metadata doc !! "id" = None
    /\ Document.metadata doc !! "text" = None
    /\ Document.metadata doc !! "docs_vector" = None
    /\ forall key,
         key <> "id" -> key <> "text" -> key <> "docs_vector" ->
         Document.metadata doc !! key = example_row "7" !! key.
Proof.
  apply (get_document_by_id_found found_memory "7" (example_row "7") []);
    reflexivity.
Defined.

(** [_get_document_by_id] never raises and asks the store once.  It gives
    [None] exactly when the store raises, returns no row, or returns a first
    row without id; the two cases that are exceptions inside are logged, the
    plain miss is not. *)
Theorem get_document_by_id_none self data_id :
  exists document,
    outcome (_get_document_by_id self data_id) = Ok document
    /\ looked_up_ids (trace (_get_document_by_id self data_id)) = [[data_id]]
    /\ (document = None
        <-> match client_get self "docs" [data_id] with
            | Ok (fields :: _) => fields !! "id" = None
            | _ => True
            end)
    /\ (EvLogLookupError data_id ∈ trace (_get_document_by_id self data_id)
        <-> match client_get self "docs" [data_id] with
            | Ok (fields :: _) => fields !! "id" = None
            | Ok [] => False
            | Raise _ => True
            end).
Proof.
  rewrite (run_eq (_get_document_by_id self data_id)).
  unfold _get_document_by_id. run_step.
  destruct (client_get self "docs" [data_id]) as [[|fields rest]|e].
  - exists None. cbn. repeat split; try done.
    intros H. apply list_elem_of_singleton in H. discriminate.
  - cbv beta iota. destruct (fields !! "id") as [id|].
    + eexists. cbn. repeat split; try done.
      intros H. apply list_elem_of_singleton in H. discriminate.
    + exists None. cbn. repeat split; try done. intros _. set_solver.
  - exists None. cbn. repeat split; try done. intros _. set_solver.
Qed.

(** ** The context of a list of documents *)

Lemma create_context_loop_result documents :
  forall context sources_list,
    create_context_loop documents context sources_list
    = match first_entry_error documents with
      | Some e => Raise e
      | None =>
          Ok (context +:+ concat_strings (map entry_block documents),
              sources_list ++ map entry_source documents)
      end.
Proof.
  induction documents as [|doc rest IH]; intros context sources_list.
  - cbn. by rewrite append_empty_r, app_nil_r.
  - cbn [create_context_loop first_entry_error]. unfold entry_error.
    destruct (metadata_item doc "number") as [number|e] eqn:Hn; [|reflexivity].
    destruct (metadata_item doc "page") as [page|e] eqn:Hp; [|reflexivity].
    rewrite IH. destruct (first_entry_error rest); [reflexivity|].
    destruct doc as [d|]; [|discriminate]. cbn [metadata_item] in Hn, Hp.
    destruct (Document.metadata d !! "number") as [n|] eqn:Hnumber;
      [|discriminate].
    destruct (Document.metadata d !! "page") as [p|] eqn:Hpage;
      [|discriminate].
    injection Hn as <-. injection Hp as <-.
    cbn [map concat_strings fold_right entry_block entry_source].
    fold (concat_strings (map entry_block rest)).
    unfold context_block, source_line. rewrite Hnumber, Hpage.
    cbn [default from_option].
    rewrite <- (app_assoc sources_list). cbn [app].
    by rewrite !append_assoc.
Qed.

(** [_create_context] returns when every entry is a document with a number
    and a page: the context is the blocks of the documents in their order and
    the sources are the header and one line per document.  Otherwise it
    raises what the first entry that lacks something makes it raise:
    [AttributeError] for a [None], [KeyError] for a document without number
    or, with a number, without page; no default is put in. *)
Theorem create_context_result documents :
  _create_context documents
  = match first_entry_error documents with
    | Some e => Raise e
    | None =>
        Ok (concat_strings (map entry_block documents),
            "Fuentes consultadas:" +:+ nl
            +:+ py_join nl (map entry_source documents))
    end.
Proof.
  unfold _create_context. rewrite create_context_loop_result.
  by destruct (first_entry_error documents).
Qed.

(** A document without number stops the context with [KeyError], wherever
    it stands after documents that are complete. *)
Theorem create_context_missing_number before doc rest :
  Forall (fun entry => entry_error entry = None) before ->
  Document.metadata doc !! "number" = None ->
  _create_context (before ++ Some doc :: rest) = Raise (KeyError "number").
Proof.
  intros Hbefore Hnumber. unfold _create_context.
  rewrite create_context_loop_result.
  assert (first_entry_error (before ++ Some doc :: rest)
          = Some (KeyError "number")) as ->; [|reflexivity].
  induction Hbefore as [|entry before Hentry _ IH].
  - cbn. unfold entry_error. cbn. by rewrite Hnumber.
  - cbn [app first_entry_error]. by rewrite Hentry.
Qed.

Lemma create_context_missing_number_example :
  _create_context
    ([Some (Document.mk "7" "decreto 7"
              {[ "number" := PyInt 7; "page" := PyInt 1 ]})]
     ++ Some (Document.mk "8" "otro texto" {[ "page" := PyInt 2 ]}) :: [])
  = Raise (KeyError "number").
Proof.
  apply create_context_missing_number.
  - repeat constructor.
  - reflexivity.
Defined.

(** ** The context of a query *)

Lemma unique_parent_ids_no_hits n_docs : unique_parent_ids [] n_docs = [].
Proof. reflexivity. Qed.

(** When the search of a query has no hit, [get_context] returns an empty
    context and the header of the sources alone, for every [n_docs], and
    looks no document up. *)
Theorem get_context_without_hits self query n_docs :
  outcome (_find_relevant_chunks self query 1000) = Ok [] ->
  get_context self query n_docs
  = (Ok (EmptyString, "Fuentes consultadas:" +:+ nl),
     trace (_find_relevant_chunks self query 1000))
  /\ looked_up_ids (trace (get_context self query n_docs)) = [].
Proof.
  intros H.
  assert (get_context self query n_docs
          = (Ok (EmptyString, "Fuentes consultadas:" +:+ nl),
             trace (_find_relevant_chunks self query 1000))) as Hrun.
  { rewrite (run_eq (get_context self query n_docs)).
    unfold get_context, _retrieve_parent_documents. run_step. rewrite H.
    run_step. rewrite unique_parent_ids_no_hits. cbn [get_documents].
    run_step. by rewrite app_nil_r. }
  split; [exact Hrun|]. rewrite Hrun, trace_pair.
  destruct (find_relevant_chunks_ok_inv _ _ _ _ H)
    as (dense & dense_0 & sparse & extracted & Hd & Hd0 & Hs & He).
  destruct extracted as [|ent extracted].
  - by rewrite (find_relevant_chunks_without_entities _ _ _ _ _ _ Hd Hd0 Hs He).
  - by rewrite (find_relevant_chunks_with_entities _ _ _ _ _ _ _ Hd Hd0 Hs He).
Qed.

Lemma get_context_without_hits_example :
  get_context example_memory "hola" 2
  = (Ok (EmptyString, "Fuentes consultadas:" +:+ nl),
     trace (_find_relevant_chunks example_memory "hola" 1000))
  /\ looked_up_ids (trace (get_context example_memory "hola" 2)) = [].
Proof. apply get_context_without_hits. reflexivity. Defined.

Lemma get_document_by_id_lookups self data_id :
  looked_up_ids (trace (_get_document_by_id self data_id)) = [[data_id]].
Proof.
  unfold _get_document_by_id. run_step.
  destruct (client_get self "docs" [data_id]) as [[|fields rest]|e];
    [reflexivity| |reflexivity].
  cbv beta iota. by destruct (fields !! "id").
Qed.

Lemma looked_up_ids_app (t1 t2 : list event) :
  looked_up_ids (t1 ++ t2) = looked_up_ids t1 ++ looked_up_ids t2.
Proof. unfold looked_up_ids. apply omap_app. Qed.

Lemma get_documents_lookups self parent_ids :
  looked_up_ids (trace (get_documents self parent_ids))
  = map (fun parent_id => [parent_id]) parent_ids.
Proof.
  induction parent_ids as [|parent_id rest IH]; [reflexivity|].
  cbn [get_documents map]. run_step.
  rewrite looked_up_ids_app, get_document_by_id_lookups.
  destruct (get_document_by_id_never_raises self parent_id) as [document ->].
  run_step. rewrite looked_up_ids_app, IH.
  destruct (get_documents_ok self rest) as (documents & -> & _).
  cbn. by rewrite app_nil_r.
Qed.

Lemma found_documents_unique self parent_ids :
  forall documents documents',
    Forall2 (fun parent_id document =>
               outcome (_get_document_by_id self parent_id) = Ok document)
            parent_ids documents ->
    Forall2 (fun parent_id document =>
               outcome (_get_document_by_id self parent_id) = Ok document)
            parent_ids documents' ->
    documents = documents'.
Proof.
  induction parent_ids as [|parent_id rest IH]; intros documents documents' H H'.
  - apply Forall2_nil_inv_l in H, H'. congruence.
  - apply Forall2_cons_inv_l in H as (d & ds & Hd & Hds & ->).
    apply Forall2_cons_inv_l in H' as (d' & ds' & Hd' & Hds' & ->).
    f_equal; [congruence|by apply IH].
Qed.

Lemma find_relevant_chunks_no_lookup self query n_results :
  looked_up_ids (trace (_find_relevant_chunks self query n_results)) = [].
Proof.
  unfold _find_relevant_chunks, hybrid_search. run_step.
  destruct (dense_encode_queries self [query]) as [dense|]; [|reflexivity].
  run_step. destruct (py_index dense 0); [|reflexivity].
  run_step.
  destruct (sparse_encode_queries self [query]) as [sparse|]; [|reflexivity].
  run_step.
  destruct (extract_entities self query) as [[|ent extracted]|];
    [| |reflexivity].
  - cbn [is_empty]. run_step.
    by destruct (chunks_hybrid_search self _).
  - cbn [is_empty]. run_step.
    destruct (chunks_hybrid_search self _) as [response|]; [|reflexivity].
    run_step. destruct (py_index response 0) as [response_0|]; [|reflexivity].
    run_step. cbn [orb].
    destruct (len _ =? 0); run_step; [|reflexivity].
    by destruct (chunks_hybrid_search self _).
Qed.

(** [get_context] from the hits to the strings: it looks up, once each and
    in their order, the parent ids collected from the hits, and returns what
    [_create_context] makes of the documents found: the blocks and the source
    lines in the order of the hits when every parent is found with its number
    and page, the exception of the first entry that is not otherwise. *)
Theorem get_context_of_hits self query n_docs hits documents :
  outcome (_find_relevant_chunks self query 1000) = Ok hits ->
  Forall2 (fun parent_id document =>
             outcome (_get_document_by_id self parent_id) = Ok document)
          (unique_parent_ids hits n_docs) documents ->
  outcome (get_context self query n_docs)
  = match first_entry_error documents with
    | Some e => Raise e
    | None =>
        Ok (concat_strings (map entry_block documents),
            "Fuentes consultadas:" +:+ nl
            +:+ py_join nl (map entry_source documents))
    end
  /\ looked_up_ids (trace (get_context self query n_docs))
     = map (fun parent_id => [parent_id]) (unique_parent_ids hits n_docs).
Proof.
  intros Hhits Hdocs. unfold get_context, _retrieve_parent_documents.
  run_step. rewrite Hhits. run_step.
  destruct (get_documents_ok self (unique_parent_ids hits n_docs))
    as (documents' & Hout & Hall).
  rewrite (found_documents_unique _ _ _ _ Hdocs Hall). rewrite Hout.
  run_step. split.
  - unfold _create_context. rewrite create_context_loop_result.
    by destruct (first_entry_error documents').
  - rewrite !looked_up_ids_app, find_relevant_chunks_no_lookup,
      get_documents_lookups.
    cbn. by rewrite app_nil_r.
Qed.

Lemma get_context_of_hits_example :
  outcome (get_context found_memory "hola" 2)
  = match first_entry_error
            [Some (Document.mk "7" "decreto 7"
                     (delete "id" (delete "text" (delete "docs_vector"
                                                    (example_row "7")))));
             Some (Document.mk "8" "decreto 8"
                     (delete "id" (delete "text" (delete "docs_vector"
                                                    (example_row "8")))))]
    with
    | Some e => Raise e
    | None =>
        Ok (concat_strings
              (map entry_block
                 [Some (Document.mk "7" "decreto 7"
                          (delete "id" (delete "text" (delete "docs_vector"
                                                         (example_row "7")))));
                  Some (Document.mk "8" "decreto 8"
                          (delete "id" (delete "text" (delete "docs_vector"
                                                         (example_row "8")))))]),
            "Fuentes consultadas:" +:+ nl
            +:+ py_join nl
                  (map entry_source
                     [Some (Document.mk "7" "decreto 7"
                              (delete "id" (delete "text" (delete "docs_vector"
                                                             (example_row "7")))));
                      Some (Document.mk "8" "decreto 8"
                              (delete "id" (delete "text" (delete "docs_vector"
                                                             (example_row "8")))))]))
    end
  /\ looked_up_ids (trace (get_context found_memory "hola" 2))
     = map (fun parent_id => [parent_id]) (unique_parent_ids example_hits 2).
Proof.
  apply (get_context_of_hits found_memory "hola" 2 example_hits).
  - reflexivity.
  - repeat constructor.
Defined.

(** ** From the document records to the context *)

(** A document stored through [_generate_doc_records] and returned by the
    store as it was stored is found again under its id with the text that was
    stored, and gives its block and its source line: the number of a record
    is always an integer, so the context never lacks it. *)
Theorem stored_document_gives_its_block
    py_int_of_str self doc r row rest :
  doc_record py_int_of_str self doc = Ok r ->
  client_get self "docs" [Document.id doc] = Ok (row :: rest) ->
  row !! "id" = Some (PyStr (DocRecord.id r)) ->
  row !! "text" = Some (PyStr (DocRecord.text r)) ->
  row !! "number" = Some (PyInt (DocRecord.number r)) ->
  row !! "page" = Some (DocRecord.page r) ->
  exists found,
    outcome (_get_document_by_id self (Document.id doc)) = Ok (Some found)
    /\ Document.id found = Document.id doc
    /\ Document.text found
       = py_str_prefix (Document.text doc) (config_doc_size self)
    /\ _create_context [Some found]
       = Ok (context_block found (PyInt (DocRecord.number r)),
             "Fuentes consultadas:" +:+ nl
             +:+ source_line (PyInt (DocRecord.number r)) (DocRecord.page r)).
Proof.
  intros Hrec Hget Hid Htext Hnumber Hpage.
  destruct (doc_record_fields _ _ _ _ Hrec) as (Hrid & _ & _ & _ & Hrtext & _).
  eexists. split.
  - unfold _get_document_by_id. run_step. rewrite Hget. cbv beta iota.
    rewrite Hid. reflexivity.
  - cbn [Document.id Document.text]. rewrite Htext. cbn [default from_option py_str].
    split; [exact Hrid|]. split; [exact Hrtext|].
    unfold _create_context. rewrite create_context_loop_result.
    cbn [first_entry_error map concat_strings fold_right py_join app].
    unfold entry_error, entry_block, entry_source, metadata_item.
    cbn [Document.metadata].
    rewrite !lookup_delete_ne by done. rewrite Hnumber, Hpage.
    cbn [default from_option]. by rewrite append_empty_r.
Qed.

Lemma stored_document_gives_its_block_example :
  exists found,
    outcome (_get_document_by_id found_memory "7") = Ok (Some found)
    /\ Document.id found = "7"
    /\ Document.text found
       = py_str_prefix "decreto 7" (config_doc_size found_memory)
    /\ _create_context [Some found]
       = Ok (context_block found (PyInt 12),
             "Fuentes consultadas:" +:+ nl +:+ source_line (PyInt 12) (PyInt 3)).
Proof.
  apply (stored_document_gives_its_block
           (fun _ => Raise ValueError) found_memory
           (Document.mk "7" "decreto 7"
              {[ "number" := PyInt 12; "page" := PyInt 3 ]})
           (DocRecord.mk "7" (PyInt 3) (PyStr "") (PyStr "") 12 "decreto 7"
              [0%Q; 0%Q])
           (example_row "7") []);
    reflexivity.
Defined.

(** ** Loading the collections *)

Lemma load_docs_collection_store config (client : MilvusClient.t) :
  fst (_load_docs_collection config client) = {["docs"]} ∪ client.
Proof.
  unfold _load_docs_collection, has_collection, create_collection.
  destruct (decide ("docs" ∈ client)) as [Hin|Hout].
  - rewrite (bool_decide_eq_true_2 _ Hin). cbn. set_solver.
  - rewrite (bool_decide_eq_false_2 _ Hout). reflexivity.
Qed.

Lemma load_chunks_collection_store config (client : MilvusClient.t) :
  fst (_load_chunks_collection config client) = {["chunks"]} ∪ client.
Proof.
  unfold _load_chunks_collection, has_collection, create_collection.
  destruct (decide ("chunks" ∈ client)) as [Hin|Hout].
  - rewrite (bool_decide_eq_true_2 _ Hin). cbn. set_solver.
  - rewrite (bool_decide_eq_false_2 _ Hout). reflexivity.
Qed.




(** ** A chat turn *)

Lemma generate_response_run bot llm_prompt system_message response content :
  template_get bot "system_message" [("model", inference_model bot)]
  = Ok system_message ->
  chat bot (default_inference_model bot)
    [("system", system_message); ("user", llm_prompt)]
  = Ok response ->
  (response !! "message") ≫= (fun message => message !! "content")
  = Some content ->
  generate_response bot llm_prompt
  = (Ok content,
     [EvTemplateGet "system_message" [("model", inference_model bot)];
      EvChat (default_inference_model bot)
        [("system", system_message); ("user", llm_prompt)]]).
Proof.
  intros Hsys Hchat Hcontent. unfold generate_response, cbind, ccall.
  rewrite Hsys. cbv beta iota zeta. rewrite Hchat. cbv beta iota zeta.
  destruct (response !! "message") as [message|]; [|discriminate].
  cbn in Hcontent. rewrite Hcontent. reflexivity.
Qed.

Lemma chat_calls_app (t1 t2 : list chat_event) :
  chat_calls (t1 ++ t2) = chat_calls t1 ++ chat_calls t2.
Proof. unfold chat_calls. apply omap_app. Qed.

Lemma chat_calls_of_memory (t : list event) :
  chat_calls (map EvLongTermMemory t) = [].
Proof. induction t as [|ev t IH]; [reflexivity|]. cbn. apply IH. Qed.

Lemma added_messages_app (t1 t2 : list chat_event) :
  added_messages (t1 ++ t2) = added_messages t1 ++ added_messages t2.
Proof. unfold added_messages. apply omap_app. Qed.

(** [respond_w_context] asks the model only once the context is there: when
    [get_context] raises, the exception comes out and neither a template nor
    the model was called.  When everything returns, the model is called once,
    on the default model and with the rendered prompt as the user message,
    and the answer is the response followed by the context; the sources are
    not in it. *)
Theorem respond_w_context_turn bot user_prompt :
  (forall e,
     outcome (get_context (long_term_mem bot) user_prompt 2) = Raise e ->
     respond_w_context bot user_prompt
     = (Raise e,
        map EvLongTermMemory
          (trace (get_context (long_term_mem bot) user_prompt 2))))
  /\ (forall context sources llm_prompt system_message response content,
        outcome (get_context (long_term_mem bot) user_prompt 2)
        = Ok (context, sources) ->
        template_get bot "llm_prompt" (llm_prompt_arguments user_prompt context)
        = Ok llm_prompt ->
        template_get bot "system_message" [("model", inference_model bot)]
        = Ok system_message ->
        chat bot (default_inference_model bot)
          [("system", system_message); ("user", llm_prompt)]
        = Ok response ->
        (response !! "message") ≫= (fun message => message !! "content")
        = Some content ->
        fst (respond_w_context bot user_prompt)
        = Ok ("RESPONSE: " +:+ py_str content +:+ nl +:+ nl
              +:+ "CONTEXT: " +:+ context)
        /\ chat_calls (snd (respond_w_context bot user_prompt))
           = [(default_inference_model bot,
               [("system", system_message); ("user", llm_prompt)])]).
Proof.
  split.
  - intros e He. unfold respond_w_context, cbind, of_memory. by rewrite He.
  - intros context sources llm_prompt system_message response content
      Hctx Hprompt Hsys Hchat Hcontent.
    assert (respond_w_context bot user_prompt
            = (Ok ("RESPONSE: " +:+ py_str content +:+ nl +:+ nl
                   +:+ "CONTEXT: " +:+ context),
               map EvLongTermMemory
                 (trace (get_context (long_term_mem bot) user_prompt 2))
               ++ EvTemplateGet "llm_prompt"
                    (llm_prompt_arguments user_prompt context)
                  :: [EvTemplateGet "system_message"
                        [("model", inference_model bot)];
                      EvChat (default_inference_model bot)
                        [("system", system_message); ("user", llm_prompt)]]
                     ++ [])) as ->.
    { unfold respond_w_context, of_memory, cbind, ccall, cret.
      rewrite Hctx. cbv beta iota zeta. cbn [fst].
      rewrite Hprompt. cbv beta iota zeta.
      rewrite (generate_response_run _ _ _ _ _ Hsys Hchat Hcontent).
      reflexivity. }
    cbn [fst snd]. split; [reflexivity|].
    rewrite chat_calls_app, chat_calls_of_memory. reflexivity.
Qed.

Lemma added_messages_of_memory (t : list event) :
  added_messages (map EvLongTermMemory t) = [].
Proof. induction t as [|ev t IH]; [reflexivity|]. cbn. apply IH. Qed.

(** [respond_w_sources] stores the message of the user before anything else.
    When [get_context] then raises, the exception comes out: the short-term
    memory holds the question without an answer, and the model was not
    called.  The query given to [get_context] is the prompt of the user,
    whatever the recalled messages are. *)
Theorem respond_w_sources_failed_turn bot user_prompt recent_messages e :
  add_message bot "user" user_prompt = Ok tt ->
  recall_messages bot 5 true = Ok recent_messages ->
  outcome (get_context (long_term_mem bot) user_prompt 2) = Raise e ->
  respond_w_sources bot user_prompt
  = (Raise e,
     EvAddMessage "user" user_prompt
     :: EvRecallMessages 5 true
     :: map EvLongTermMemory
          (trace (get_context (long_term_mem bot) user_prompt 2)))
  /\ added_messages (snd (respond_w_sources bot user_prompt))
     = [("user", user_prompt)]
  /\ chat_calls (snd (respond_w_sources bot user_prompt)) = [].
Proof.
  intros Hadd Hrecall Hctx.
  assert (respond_w_sources bot user_prompt
          = (Raise e,
             EvAddMessage "user" user_prompt
             :: EvRecallMessages 5 true
             :: map EvLongTermMemory
                  (trace (get_context (long_term_mem bot) user_prompt 2))))
    as Hrun.
  { unfold respond_w_sources, _create_query, of_memory, cbind, ccall.
    rewrite Hadd. cbv beta iota zeta. rewrite Hrecall. cbv beta iota zeta.
    by rewrite Hctx. }
  rewrite Hrun. split; [reflexivity|]. cbn [snd]. split.
  - change (added_messages
              ([EvAddMessage "user" user_prompt; EvRecallMessages 5 true]
               ++ map EvLongTermMemory
                    (trace (get_context (long_term_mem bot) user_prompt 2)))
            = [("user", user_prompt)]).
    by rewrite added_messages_app, added_messages_of_memory.
  - change (chat_calls
              ([EvAddMessage "user" user_prompt; EvRecallMessages 5 true]
               ++ map EvLongTermMemory
                    (trace (get_context (long_term_mem bot) user_prompt 2)))
            = []).
    by rewrite chat_calls_app, chat_calls_of_memory.
Qed.

Lemma respond_w_sources_failed_turn_example :
  respond_w_sources (example_chatbot dropped_store_memory) "hola"
  = (Raise collection_not_found,
     EvAddMessage "user" "hola"
     :: EvRecallMessages 5 true
     :: map EvLongTermMemory
          (trace (get_context
                    (long_term_mem (example_chatbot dropped_store_memory))
                    "hola" 2)))
  /\ added_messages
       (snd (respond_w_sources (example_chatbot dropped_store_memory) "hola"))
     = [("user", "hola")]
  /\ chat_calls
       (snd (respond_w_sources (example_chatbot dropped_store_memory) "hola"))
     = [].
Proof.
  apply (respond_w_sources_failed_turn
           (example_chatbot dropped_store_memory) "hola" "user: hola");
    reflexivity.
Defined.

(** A turn of [respond_w_sources] in which everything returns: the answer is
    the response of the model followed by the sources of [get_context], and
    that same string is what is stored as the message of the assistant, after
    the message of the user. *)
Theorem respond_w_sources_turn
    bot user_prompt recent_messages context sources llm_prompt
    system_message response content :
  add_message bot "user" user_prompt = Ok tt ->
  recall_messages bot 5 true = Ok recent_messages ->
  outcome (get_context (long_term_mem bot) user_prompt 2)
  = Ok (context, sources) ->
  template_get bot "llm_prompt" (llm_prompt_arguments user_prompt context)
  = Ok llm_prompt ->
  template_get bot "system_message" [("model", inference_model bot)]
  = Ok system_message ->
  chat bot (default_inference_model bot)
    [("system", system_message); ("user", llm_prompt)]
  = Ok response ->
  (response !! "message") ≫= (fun message => message !! "content")
  = Some content ->
  let answer := py_str content +:+ nl +:+ nl +:+ sources in
  fst (respond_w_sources bot user_prompt)
  = match add_message bot "assistant" answer with
    | Ok _ => Ok answer
    | Raise e => Raise e
    end
  /\ added_messages (snd (respond_w_sources bot user_prompt))
     = [("user", user_prompt); ("assistant", answer)].
Proof.
  intros Hadd Hrecall Hctx Hprompt Hsys Hchat Hcontent answer.
  assert (respond_w_sources bot user_prompt
          = (match add_message bot "assistant" answer with
             | Ok _ => Ok answer
             | Raise e => Raise e
             end,
             [EvAddMessage "user" user_prompt; EvRecallMessages 5 true]
             ++ map EvLongTermMemory
                  (trace (get_context (long_term_mem bot) user_prompt 2))
             ++ [EvTemplateGet "llm_prompt"
                   (llm_prompt_arguments user_prompt context);
                 EvTemplateGet "system_message"
                   [("model", inference_model bot)];
                 EvChat (default_inference_model bot)
                   [("system", system_message); ("user", llm_prompt)];
                 EvAddMessage "assistant" answer])) as ->.
  { unfold respond_w_sources, _create_query, of_memory, cbind, ccall, cret.
    rewrite Hadd. cbv beta iota zeta. rewrite Hrecall. cbv beta iota zeta.
    rewrite Hctx. cbv beta iota zeta. cbn [fst snd].
    rewrite Hprompt. cbv beta iota zeta.
    rewrite (generate_response_run _ _ _ _ _ Hsys Hchat Hcontent).
    cbv beta iota zeta. fold answer.
    destruct (add_message bot "assistant" answer) as [[]|e']; reflexivity. }
  cbn [fst snd]. split; [reflexivity|].
  rewrite !added_messages_app, added_messages_of_memory. reflexivity.
Qed.

Lemma respond_w_sources_turn_example :
  let answer := py_str (PyStr "vale") +:+ nl +:+ nl
                +:+ snd example_context_sources in
  fst (respond_w_sources (example_chatbot found_memory) "hola")
  = match add_message (example_chatbot found_memory) "assistant" answer with
    | Ok _ => Ok answer
    | Raise e => Raise e
    end
  /\ added_messages (snd (respond_w_sources (example_chatbot found_memory) "hola"))
     = [("user", "hola"); ("assistant", answer)].
Proof.
  apply (respond_w_sources_turn
           (example_chatbot found_memory) "hola" "user: hola"
           (fst example_context_sources) (snd example_context_sources)
           ("llm_prompt:hola") ("system_message:llama3")
           {[ "message" := {[ "content" := PyStr "vale" ]} ]} (PyStr "vale"));
    reflexivity.
Defined.

(** ** Reading the pages of a pdf *)

Lemma read_pages_unbounded num_pages doc :
  (num_pages = None \/ num_pages = Some 0) ->
  forall pages, read_pages num_pages doc pages = pages ++ readable_prefix doc.
Proof.
  intros Hnum. induction doc as [|page rest IH]; intros pages; cbn.
  - by rewrite app_nil_r.
  - assert (enough_pages num_pages pages = false) as ->
      by (destruct Hnum as [->| ->]; reflexivity).
    destruct page as [text|e]; [|by rewrite app_nil_r].
    rewrite IH. by rewrite <- app_assoc.
Qed.

Lemma read_pages_bounded n doc :
  n <> 0 ->
  forall pages,
    len pages <= Z.max n 0 ->
    read_pages (Some n) doc pages
    = take (Z.to_nat n) (pages ++ readable_prefix doc).
Proof.
  intros Hn. unfold len.
  induction doc as [|page rest IH]; intros pages Hlen; cbn.
  - rewrite app_nil_r, take_ge; [reflexivity|lia].
  - destruct (Z.eqb_spec n 0) as [?|_]; [contradiction|]. cbn [negb andb].
    unfold len. destruct (Z.geb_spec (Z.of_nat (length pages)) n) as [Hge|Hlt].
    + rewrite take_app_length'; [reflexivity|lia].
    + destruct page as [text|e].
      * rewrite IH by (rewrite length_app; simpl; lia).
        by rewrite <- app_assoc.
      * rewrite app_nil_r, take_ge; [reflexivity|lia].
Qed.

(** [read_pdf] never raises.  It returns the texts of the pages in their
    order up to the first page that cannot be read, and at most [num_pages]
    of them when that number is given and not 0: none when the pdf cannot be
    opened or when [num_pages] is negative, all the readable ones when
    [num_pages] is [None] or 0. *)
Theorem read_pdf_pages self :
  read_pdf self
  = match Evaluator.open_pdf self with
    | Raise _ => []
    | Ok doc =>
        match Evaluator.num_pages self with
        | None => readable_prefix doc
        | Some n =>
            if n =? 0 then readable_prefix doc
            else take (Z.to_nat n) (readable_prefix doc)
        end
    end
  /\ (forall n,
        Evaluator.num_pages self = Some n -> 1 <= n ->
        len (read_pdf self) <= n)
  /\ (forall n,
        Evaluator.num_pages self = Some n -> n < 0 -> read_pdf self = []).
Proof.
  assert (read_pdf self
          = match Evaluator.open_pdf self with
            | Raise _ => []
            | Ok doc =>
                match Evaluator.num_pages self with
                | None => readable_prefix doc
                | Some n =>
                    if n =? 0 then readable_prefix doc
                    else take (Z.to_nat n) (readable_prefix doc)
                end
            end) as Heq.
  { unfold read_pdf. destruct (Evaluator.open_pdf self) as [doc|]; [|reflexivity].
    destruct (Evaluator.num_pages self) as [n|].
    - destruct (Z.eqb_spec n 0) as [->|Hn].
      + by rewrite read_pages_unbounded by (by right).
      + by rewrite read_pages_bounded by (unfold len; simpl; lia).
    - by rewrite read_pages_unbounded by (by left). }
  split; [exact Heq|]. rewrite Heq. split.
  - intros n -> Hn. destruct (Evaluator.open_pdf self) as [doc|];
      [|unfold len; simpl; lia].
    destruct (Z.eqb_spec n 0) as [?|_]; [lia|].
    unfold len. rewrite length_take. lia.
  - intros n -> Hn. destruct (Evaluator.open_pdf self) as [doc|]; [|reflexivity].
    destruct (Z.eqb_spec n 0) as [?|_]; [lia|].
    by replace (Z.to_nat n) with 0%nat by lia.
Qed.

(** ** Records without the insertion *)

(** [_process_documents] inserts nothing, and what it returns is what
    [_process_and_insert_chunk_batch] sends to the store, in one call, for the
    same documents. *)
Theorem process_documents_records self documents records :
  outcome (_process_documents self documents) = Ok records ->
  insert_calls (trace (_process_documents self documents)) = []
  /\ insert_calls (trace (_process_and_insert_chunk_batch self documents))
     = [records]
  /\ outcome (_process_and_insert_chunk_batch self documents)
     = chunks_insert self records.
Proof.
  unfold _process_documents, _process_and_insert_chunk_batch. intros H.
  run_step_in H. run_step.
  destruct (_chunk_documents self documents) as [chunks|]; [|discriminate].
  run_step_in H. run_step.
  destruct (outcome (_generate_chunk_records self chunks)) as [rs|] eqn:Hgen;
    [|discriminate].
  run_step_in H. cbn [app] in H. injection H as <-.
  rewrite trace_ret, app_nil_r.
  unfold _insert_chunk_records. run_step.
  rewrite !insert_calls_app.
  rewrite (insert_calls_of_record_calls _ (generate_chunk_records_trace _ _)).
  by repeat split.
Qed.

Lemma process_documents_records_example :
  insert_calls (trace (_process_documents example_memory example_documents)) = []
  /\ insert_calls
       (trace (_process_and_insert_chunk_batch example_memory example_documents))
     = [example_records]
  /\ outcome (_process_and_insert_chunk_batch example_memory example_documents)
     = chunks_insert example_memory example_records.
Proof.
  apply process_documents_records. vm_compute. reflexivity.
Defined.

(** ** The transposed insertion *)

Lemma shortest_le {A} (rows : list (list A)) row :
  row ∈ rows -> (shortest rows <= length row)%nat.
Proof.
  destruct rows as [|first rest]; [by intros ?%elem_of_nil|].
  cbn [shortest]. revert first.
  induction rest as [|r rest IH]; intros first Hin; cbn [fold_right].
  - apply list_elem_of_singleton in Hin as ->. lia.
  - apply elem_of_cons in Hin as [->|Hin].
    + specialize (IH first ltac:(left)). lia.
    + apply elem_of_cons in Hin as [->|Hin]; [lia|].
      specialize (IH first ltac:(by right)).
      assert (fold_right (fun r acc => Nat.min (length r) acc) (length first) rest
              <= length row)%nat; [|lia].
      clear IH. induction rest as [|r' rest IH']; [by apply elem_of_nil in Hin|].
      cbn [fold_right]. apply elem_of_cons in Hin as [->|Hin]; [lia|].
      specialize (IH' Hin). lia.
Qed.

Lemma shortest_ge {A} (rows : list (list A)) n :
  rows <> [] ->
  Forall (fun row => (n <= length row)%nat) rows ->
  (n <= shortest rows)%nat.
Proof.
  destruct rows as [|first rest]; [done|]. intros _ Hall.
  apply Forall_cons in Hall as [Hfirst Hrest]. cbn [shortest].
  induction Hrest as [|r rest Hr _ IH]; cbn [fold_right]; lia.
Qed.

Lemma zip_star_lookup {A} (rows : list (list A)) k :
  (k < shortest rows)%nat -> py_zip_star rows !! k = Some (column k rows).
Proof.
  intros Hk. unfold py_zip_star.
  rewrite list_lookup_fmap, lookup_seq_lt by done. reflexivity.
Qed.

Lemma zip_star_length {A} (rows : list (list A)) :
  length (py_zip_star rows) = shortest rows.
Proof. unfold py_zip_star. by rewrite length_map, length_seq. Qed.

Lemma column_length {A} (rows : list (list A)) k :
  Forall (fun row => (k < length row)%nat) rows ->
  length (column k rows) = length rows.
Proof.
  induction 1 as [|row rows Hrow _ IH]; [reflexivity|].
  unfold column in *. cbn.
  destruct (lookup_lt_is_Some_2 row k Hrow) as [x ->]. cbn. by rewrite IH.
Qed.

(** [_insert_doc_records] raises [IndexError], and does not reach the
    insertion, when it is given no record or a record of fewer than six
    values.  Given records of at least six values it inserts six columns,
    from id to text, each as long as the list of records; what a record
    holds after its sixth value is not inserted. *)
Theorem insert_doc_records_columns docs_insert doc_records :
  ((doc_records = [] \/ exists row, row ∈ doc_records /\ (length row < 6)%nat) ->
   _insert_doc_records docs_insert doc_records = Raise IndexError)
  /\ (doc_records <> [] ->
      Forall (fun row => (6 <= length row)%nat) doc_records ->
      _insert_doc_records docs_insert doc_records
      = docs_insert
          [("id", column 0 doc_records); ("page", column 1 doc_records);
           ("date", column 2 doc_records); ("type", column 3 doc_records);
           ("number", column 4 doc_records); ("text", column 5 doc_records)]
      /\ forall k, (k < 6)%nat ->
           length (column k doc_records) = length doc_records).
Proof.
  split.
  - intros Hshort.
    assert (shortest doc_records < 6)%nat as Hlen.
    { destruct Hshort as [->|(row & Hin & Hrow)]; [simpl; lia|].
      pose proof (shortest_le _ _ Hin). lia. }
    unfold _insert_doc_records, py_index.
    assert (forall k, (shortest doc_records <= k)%nat ->
              py_zip_star doc_records !! k = None) as Hnone.
    { intros k Hk. apply lookup_ge_None. by rewrite zip_star_length. }
    destruct (py_zip_star doc_records !! 0%nat) eqn:H0; [|reflexivity].
    destruct (py_zip_star doc_records !! 1%nat) eqn:H1; [|reflexivity].
    destruct (py_zip_star doc_records !! 2%nat) eqn:H2; [|reflexivity].
    destruct (py_zip_star doc_records !! 3%nat) eqn:H3; [|reflexivity].
    destruct (py_zip_star doc_records !! 4%nat) eqn:H4; [|reflexivity].
    destruct (py_zip_star doc_records !! 5%nat) eqn:H5; [|reflexivity].
    apply lookup_lt_Some in H5. rewrite zip_star_length in H5. lia.
  - intros Hne Hall. pose proof (shortest_ge _ 6 Hne Hall) as Hlen. split.
    + unfold _insert_doc_records, py_index.
      by rewrite !zip_star_lookup by lia.
    + intros k Hk. apply column_length.
      eapply Forall_impl; [exact Hall|]. cbn. intros row Hrow. lia.
Qed.

(** ** The order of [add_documents] *)

(** [add_documents] inserts the records of all the documents, in one call,
    before the first chunk is made.  When that insertion raises, no chunk is
    processed.  When it returns, the chunks are processed in batches of 10
    from the first document; a batch that raises then leaves the document
    records inserted, and a run without failure hands every document to the
    chunker once, in order. *)
Theorem add_documents_order
    py_int_of_str self files type documents doc_records :
  generate_documents self files type = Ok documents ->
  _generate_doc_records py_int_of_str self documents = Ok doc_records ->
  let run := add_documents py_int_of_str self files type in
  let chunks_run := _process_and_insert_chunks self documents 10 0 in
  length doc_records = length documents
  /\ (forall e,
        client_insert_docs self doc_records = Raise e ->
        run = (Raise e,
               [EvGenerateDocuments files type;
                EvClientInsertDocs doc_records]))
  /\ (client_insert_docs self doc_records = Ok tt ->
      run = (outcome chunks_run,
             EvGenerateDocuments files type
             :: EvClientInsertDocs doc_records :: trace chunks_run)
      /\ ((forall j,
             (j < Z.to_nat (num_batches documents 10 0))%nat ->
             outcome (run_batch self documents 10 0 j) = Ok tt) ->
          outcome run = Ok tt
          /\ concat (chunked_batches (trace run)) = documents)).
Proof.
  intros Hgen Hrec run chunks_run.
  split; [symmetry; eapply Forall2_length, generate_doc_records_inv, Hrec|].
  split.
  - intros e Hins. subst run. rewrite (run_eq (add_documents _ _ _ _)).
    unfold add_documents. run_step. rewrite Hgen. run_step. rewrite Hrec.
    run_step. by rewrite Hins.
  - intros Hins.
    assert (run = (outcome chunks_run,
                   EvGenerateDocuments files type
                   :: EvClientInsertDocs doc_records :: trace chunks_run))
      as Hrun.
    { subst run chunks_run. rewrite (run_eq (add_documents _ _ _ _)).
      unfold add_documents. run_step. rewrite Hgen. run_step. rewrite Hrec.
      run_step. rewrite Hins. run_step. reflexivity. }
    split; [exact Hrun|]. intros Hok. rewrite Hrun. subst chunks_run.
    rewrite (process_and_insert_chunks_ok_run self documents 10 0
               ltac:(lia) Hok).
    rewrite trace_pair. split; [reflexivity|].
    change (concat
              (chunked_batches
                 ([EvGenerateDocuments files type;
                   EvClientInsertDocs doc_records]
                  ++ flat_map
                       (fun j => trace (run_batch self documents 10 0 j))
                       (seq 0 (Z.to_nat (num_batches documents 10 0)))))
            = documents).
    rewrite chunked_batches_app, chunked_batches_runs. cbn [app chunked_batches
      omap list_omap].
    rewrite batches_concat by lia. cbn [Z.to_nat drop].
    apply take_ge. pose proof (num_batches_enough documents 10 0) as H.
    cbn [Z.to_nat drop] in H. apply H; lia.
Qed.

Lemma add_documents_order_example :
  length [DocRecord.mk "7" (PyInt 0) (PyStr "") (PyStr "") 0 "decreto 7"
            [0%Q; 0%Q];
          DocRecord.mk "8" (PyInt 0) (PyStr "") (PyStr "") 0 "otro texto"
            [0%Q; 0%Q]]
  = length example_documents
  /\ outcome (add_documents (fun _ => Raise ValueError)
                documents_memory ["a.pdf"] "decrees")
     = Ok tt
  /\ concat (chunked_batches
               (trace (add_documents (fun _ => Raise ValueError)
                         documents_memory ["a.pdf"] "decrees")))
     = example_documents.
Proof.
  destruct (add_documents_order (fun _ => Raise ValueError)
              documents_memory ["a.pdf"] "decrees" example_documents
              [DocRecord.mk "7" (PyInt 0) (PyStr "") (PyStr "") 0 "decreto 7"
                 [0%Q; 0%Q];
               DocRecord.mk "8" (PyInt 0) (PyStr "") (PyStr "") 0 "otro texto"
                 [0%Q; 0%Q]]
              eq_refl eq_refl)
    as (Hlen & _ & Hok).
  split; [exact Hlen|]. destruct (Hok eq_refl) as [_ Hall].
  apply Hall. intros j Hj. destruct j as [|j]; [reflexivity|].
  vm_compute in Hj. lia.
Defined.

(** ** How many documents a query looks up *)

Lemma get_context_lookups self query n_docs :
  looked_up_ids (trace (get_context self query n_docs))
  = match outcome (_find_relevant_chunks self query 1000) with
    | Ok hits => map (fun parent_id => [parent_id])
                     (unique_parent_ids hits n_docs)
    | Raise _ => []
    end.
Proof.
  unfold get_context, _retrieve_parent_documents. run_step.
  rewrite looked_up_ids_app, find_relevant_chunks_no_lookup.
  destruct (outcome (_find_relevant_chunks self query 1000)) as [hits|];
    [|reflexivity].
  run_step. rewrite looked_up_ids_app, get_documents_lookups.
  destruct (get_documents_ok self (unique_parent_ids hits n_docs))
    as (documents & -> & _).
  run_step. cbn. by rewrite app_nil_r.
Qed.

(** For a positive [n_docs], [get_context] asks the docs collection for at
    most [n_docs] documents, one id per call and no id twice, whatever the
    search returns and whether or not the context comes out. *)
Theorem get_context_lookups_bound self query n_docs :
  1 <= n_docs ->
  len (looked_up_ids (trace (get_context self query n_docs))) <= n_docs
  /\ NoDup (looked_up_ids (trace (get_context self query n_docs)))
  /\ Forall (fun ids => length ids = 1%nat)
            (looked_up_ids (trace (get_context self query n_docs))).
Proof.
  intros Hk. rewrite get_context_lookups.
  destruct (outcome (_find_relevant_chunks self query 1000)) as [hits|].
  2:{ split; [unfold len; simpl; lia|]. split; constructor. }
  rewrite (unique_parent_ids_take hits n_docs Hk). split; [|split].
  - unfold len. rewrite length_map, length_take. lia.
  - apply NoDup_fmap_2; [by intros x y [= ->]|].
    eapply sublist_NoDup; [apply first_occurrences_NoDup|apply sublist_take].
  - apply Forall_forall. intros ids Hin.
    apply list_elem_of_fmap in Hin as (parent_id & -> & _). reflexivity.
Qed.

Lemma get_context_lookups_bound_example :
  len (looked_up_ids (trace (get_context found_memory "hola" 1))) <= 1
  /\ NoDup (looked_up_ids (trace (get_context found_memory "hola" 1)))
  /\ Forall (fun ids => length ids = 1%nat)
            (looked_up_ids (trace (get_context found_memory "hola" 1))).
Proof. apply get_context_lookups_bound. lia. Defined.
